(** * zMCP: the capability registry and the tool-use loop of [mcp_chatbot.py]

    A shallow embedding of class [MCP_ChatBot]: the registry [self.sessions]
    that maps tool names, prompt names and resource URIs to client sessions,
    the bootstrap ([connect_to_server], [connect_to_servers]), the tool-use
    loop ([process_query]), resource and prompt access ([get_resource],
    [list_prompts], [execute_prompt]) and the command dispatcher
    ([chat_loop], [main]).

    Conventions.
    - Python strings are [string]s; whitespace and case are those of ASCII.
    - A [dict] is an association list in insertion order, without duplicate
      keys: iteration order is observable in [get_resource].
    - The file system, the backends and the model service are oracles over an
      abstract world ([Externals]); every call threads the world.
    - [print] and every call that leaves the process is recorded in a trace.
    - An exception is an outcome ([Raise]); [while True] loops take fuel. *)

From Stdlib Require Import List String Ascii Bool Arith ZArith Lia DecimalString.
Import ListNotations.
Open Scope list_scope.
Open Scope string_scope.

Set Implicit Arguments.
Set Warnings "-register-all".

(** ** Python strings *)

Module PyStr.

(** The newline character, for the ["\n"] of the source's literals. *)
Definition nl : string := String (ascii_of_nat 10) EmptyString.

(** [str.isspace] on one ASCII character: TAB, LF, VT, FF, CR, FS, GS, RS,
    US and the space. *)
Definition is_space (c : ascii) : bool :=
  let n := nat_of_ascii c in
  (Nat.leb 9 n && Nat.leb n 13) || (Nat.leb 28 n && Nat.leb n 32).

Fixpoint lstrip (s : string) : string :=
  match s with
  | EmptyString => EmptyString
  | String c s' => if is_space c then lstrip s' else s
  end.

Fixpoint rstrip (s : string) : string :=
  match s with
  | EmptyString => EmptyString
  | String c s' =>
      match rstrip s' with
      | EmptyString => if is_space c then EmptyString else String c EmptyString
      | r => String c r
      end
  end.

(** [s.strip()] *)
Definition strip (s : string) : string := rstrip (lstrip s).

(** [s.split()]: the maximal runs of non-whitespace characters, in order.
    [cur] is the run being read. *)
Fixpoint split_from (cur : string) (s : string) : list string :=
  match s with
  | EmptyString => match cur with EmptyString => [] | _ => [cur] end
  | String c s' =>
      if is_space c
      then match cur with
           | EmptyString => split_from EmptyString s'
           | _ => cur :: split_from EmptyString s'
           end
      else split_from (cur ++ String c EmptyString) s'
  end.

Definition split (s : string) : list string := split_from EmptyString s.

Definition lower_char (c : ascii) : ascii :=
  let n := nat_of_ascii c in
  if Nat.leb 65 n && Nat.leb n 90 then ascii_of_nat (n + 32) else c.

(** [s.lower()] *)
Fixpoint lower (s : string) : string :=
  match s with
  | EmptyString => EmptyString
  | String c s' => String (lower_char c) (lower s')
  end.

(** [s.startswith(p)] *)
Definition startswith (s p : string) : bool := String.prefix p s.

(** [c in s] for a one-character [c] *)
Fixpoint contains (c : ascii) (s : string) : bool :=
  match s with
  | EmptyString => false
  | String d s' => Ascii.eqb c d || contains c s'
  end.

(** [s.split(c, 1)] when [c in s]: the text before the first [c] and the
    text after it. Without a [c] the whole of [s] comes back on the left. *)
Fixpoint split_once (c : ascii) (s : string) : string * string :=
  match s with
  | EmptyString => (EmptyString, EmptyString)
  | String d s' =>
      if Ascii.eqb c d then (EmptyString, s')
      else let (k, v) := split_once c s' in (String d k, v)
  end.

(** [sep.join(l)] *)
Fixpoint join (sep : string) (l : list string) : string :=
  match l with
  | [] => EmptyString
  | [x] => x
  | x :: rest => x ++ sep ++ join sep rest
  end.

(** The characters of a string, as Python iterates them. *)
Fixpoint chars (s : string) : list string :=
  match s with
  | EmptyString => []
  | String c s' => String c EmptyString :: chars s'
  end.

(** [str(n)] for a length. *)
Definition of_nat (n : nat) : string := NilEmpty.string_of_uint (Nat.to_uint n).

End PyStr.

(** ** Python dictionaries *)

Module PyDict.

Section Dict.
Variable V : Type.

Definition t := list (string * V).

(** [d.get(k)] *)
Fixpoint get (k : string) (d : t) : option V :=
  match d with
  | [] => None
  | (k', v) :: rest => if String.eqb k k' then Some v else get k rest
  end.

(** [d[k] = v]: an existing key keeps its place, a new one goes last. *)
Fixpoint set (k : string) (v : V) (d : t) : t :=
  match d with
  | [] => [(k, v)]
  | (k', v') :: rest =>
      if String.eqb k k' then (k', v) :: rest else (k', v') :: set k v rest
  end.

Definition keys (d : t) : list string := map fst d.

(** [not d] *)
Definition is_empty (d : t) : bool :=
  match d with [] => true | _ => false end.

End Dict.

Arguments get {V} k d.
Arguments set {V} k v d.
Arguments keys {V} d.
Arguments is_empty {V} d.

End PyDict.


(** ** Values, exceptions and the data the backends hand over *)

(** A value decoded by [json.load]; an object has become a [dict]. *)
Inductive json : Type :=
| JNull
| JBool (b : bool)
| JInt (z : Z)
| JFloat (repr : string)
| JStr (s : string)
| JArr (items : list json)
| JObj (members : list (string * json)).

(** [type(v).__name__] *)
Definition type_name (v : json) : string :=
  match v with
  | JNull => "NoneType"
  | JBool _ => "bool"
  | JInt _ => "int"
  | JFloat _ => "float"
  | JStr _ => "str"
  | JArr _ => "list"
  | JObj _ => "dict"
  end.

(** The exception classes the handlers of the source tell apart; [str(e)] is
    the message. *)
Inductive exn : Type :=
| FileNotFoundError (msg : string)
| JSONDecodeError (msg : string)
| AttributeError (msg : string)
| TypeError (msg : string)
| OtherException (msg : string).

Definition str_exn (e : exn) : string :=
  match e with
  | FileNotFoundError m | JSONDecodeError m | AttributeError m
  | TypeError m | OtherException m => m
  end.

Definition no_attribute (v : json) (attr : string) : exn :=
  AttributeError ("'" ++ type_name v ++ "' object has no attribute '" ++ attr ++ "'").

(** [len(v)] *)
Definition py_len (v : json) : exn + nat :=
  match v with
  | JStr s => inr (String.length s)
  | JArr l => inr (List.length l)
  | JObj o => inr (List.length o)
  | _ => inl (TypeError ("object of type '" ++ type_name v ++ "' has no len()"))
  end.

(** A [ClientSession] object, by identity. *)
Definition session := nat.

(** An item of [response.tools]; [None] is an attribute the object lacks. *)
Record tool_info := {
  tool_name : string;
  tool_description : option json;
  tool_inputSchema : option json
}.

(** An argument of a prompt: an object with [name], or a mapping. *)
Inductive prompt_arg : Type :=
| ArgObject (name : string)
| ArgMapping (d : PyDict.t string).

(** An item of [prompts_response.prompts]. *)
Record prompt_info := {
  prompt_name : string;
  prompt_description : option json;
  prompt_arguments : option (list prompt_arg)
}.

(** An item of [resources_response.resources]; [resource_uri] is
    [str(resource.uri)]. *)
Record resource_info := { resource_uri : string }.

(** What [session.list_tools()] and its siblings come to. *)
Inductive listing (A : Type) : Type :=
| NoMethod
| ListRaises (e : exn)
| NoField
| Listed (items : list A).

Arguments NoMethod {A}.
Arguments ListRaises {A} e.
Arguments NoField {A}.

(** An entry of [self.available_tools]. *)
Record tool_descriptor := {
  td_name : string;
  td_description : json;
  td_input_schema : json
}.

(** An entry of [self.available_prompts]. An absent or empty ["arguments"]
    is the empty list: the source only tests and iterates it. *)
Record prompt_descriptor := {
  pd_name : string;
  pd_description : json;
  pd_arguments : list prompt_arg
}.

(** A block of [response.content]. *)
Inductive segment : Type :=
| Text (text : string)
| ToolUse (id : string) (name : string) (input : json)
| OtherBlock (type : string).

Definition is_tool_use (c : segment) : bool :=
  match c with ToolUse _ _ _ => true | _ => false end.

(** An entry of [messages]. The content of an assistant message is the list
    object [assistant_content], held by reference. *)
Inductive message : Type :=
| UserText (query : string)
| Assistant (content : nat)
| ToolResult (tool_use_id : string) (content : json).

(** A message as the model service receives it. *)
Inductive api_message : Type :=
| ApiUser (query : string)
| ApiAssistant (content : list segment)
| ApiToolResult (tool_use_id : string) (content : json).

(** The local lists of [process_query]: the [assistant_content] objects
    allocated so far, by address, and [messages]. *)
Record transcript := {
  heap : list (list segment);
  messages : list message
}.

(** What [session.get_prompt] returns, as far as [execute_prompt] looks. *)
Inductive prompt_item : Type :=
| ItemText (text : string)
| ItemOther (str : string).

Inductive prompt_content : Type :=
| ContentStr (s : string)
| ContentText (text : string)
| ContentItems (items : list prompt_item).

(** [None] is a falsy result; the list is [result.messages], each message by
    its [content]. *)
Definition prompt_result := option (list prompt_content).

(** An item of [result.contents]: with a [text], or without. *)
Inductive resource_content : Type :=
| TextContents (text : string)
| BlobContents (class : string).

Definition resource_result := option (list resource_content).

(** A line of input, or the exception [input] raises. *)
Inductive user_input : Type :=
| Line (s : string)
| EOFError
| KeyboardInterrupt.

(** What the process does that is visible outside it, in order. *)
Inductive event : Type :=
| Print (text : string)
| ReadLine (prompt : string)
| OpenConfig
| Launch (server_name : string) (server_config : json)
| ListTools (s : session)
| ListPrompts (s : session)
| ListResources (s : session)
| CreateMessage (tools : list tool_descriptor) (msgs : list api_message)
| CallTool (s : session) (name : string) (input : json)
| GetPrompt (s : session) (name : string) (args : PyDict.t string)
| ReadResource (s : session) (uri : string)
| Close.

(** ** The world outside the process *)

Class Externals (W : Type) : Type := {
  (** [open('server_config.json')] and [json.load] *)
  load_config : W -> W * (exn + json);
  (** [StdioServerParameters], [stdio_client], [ClientSession], [initialize] *)
  launch : W -> string -> json -> W * (exn + session);
  session_list_tools : W -> session -> W * listing tool_info;
  session_list_prompts : W -> session -> W * listing prompt_info;
  session_list_resources : W -> session -> W * listing resource_info;
  (** [self.anthropic.messages.create] *)
  messages_create :
    W -> list tool_descriptor -> list api_message -> W * (exn + list segment);
  session_call_tool : W -> session -> string -> json -> W * (exn + json);
  session_get_prompt :
    W -> session -> string -> PyDict.t string -> W * (exn + prompt_result);
  session_read_resource : W -> session -> string -> W * (exn + resource_result);
  (** [self.exit_stack.aclose()] *)
  aclose : W -> W * (exn + unit);
  (** [str(v)] of a number or a container *)
  py_repr : json -> string
}.

(** [str(v)], as an f-string formats a value. *)
Definition py_str {W} {X : Externals W} (v : json) : string :=
  match v with
  | JNull => "None"
  | JBool true => "True"
  | JBool false => "False"
  | JStr s => s
  | _ => py_repr v
  end.

(** ** The object and the effects *)

(** [self]: the three attributes [__init__] creates. *)
Record chatbot := {
  available_tools : list tool_descriptor;
  available_prompts : list prompt_descriptor;
  sessions : PyDict.t session
}.

(** [MCP_ChatBot()] *)
Definition new_chatbot : chatbot :=
  {| available_tools := []; available_prompts := []; sessions := [] |}.

Inductive outcome (A : Type) : Type :=
| Return (a : A)
| Raise (e : exn)
| Unfinished.

Arguments Raise {A} e.
Arguments Unfinished {A}.

Section Machine.
Context {W : Type} {X : Externals W}.

Record state := {
  world : W;
  self : chatbot;
  trace : list event
}.

Definition M (A : Type) : Type := state -> outcome A * state.

Definition ret {A} (a : A) : M A := fun st => (Return a, st).

Definition bind {A B} (m : M A) (k : A -> M B) : M B :=
  fun st =>
    match m st with
    | (Return a, st') => k a st'
    | (Raise e, st') => (Raise e, st')
    | (Unfinished, st') => (Unfinished, st')
    end.

Definition raise {A} (e : exn) : M A := fun st => (Raise e, st).

(** Out of fuel, or out of scripted input: the run has not ended. *)
Definition unfinished {A} : M A := fun st => (Unfinished, st).

(** [try: m except Exception as e: handler e] *)
Definition try_except {A} (m : M A) (handler : exn -> M A) : M A :=
  fun st =>
    match m st with
    | (Raise e, st') => handler e st'
    | r => r
    end.

(** [try: m finally: fin]; a body that has not ended has not reached
    [fin]. *)
Definition try_finally {A} (m : M A) (fin : M unit) : M A :=
  fun st =>
    match m st with
    | (Unfinished, st') => (Unfinished, st')
    | (r, st') =>
        match fin st' with
        | (Return _, st'') => (r, st'')
        | (Raise e, st'') => (Raise e, st'')
        | (Unfinished, st'') => (Unfinished, st'')
        end
    end.

Definition emit (e : event) : M unit :=
  fun st =>
    (Return tt,
     {| world := world st; self := self st; trace := trace st ++ [e] |}).

Definition print (text : string) : M unit := emit (Print text).

Definition get_self : M chatbot := fun st => (Return (self st), st).

Definition set_self (b : chatbot) : M unit :=
  fun st => (Return tt, {| world := world st; self := b; trace := trace st |}).

(** A call to the outside: the oracle reads and replaces the world. *)
Definition ask {A} (f : W -> W * A) : M A :=
  fun st =>
    let (w, a) := f (world st) in
    (Return a, {| world := w; self := self st; trace := trace st |}).

(** A call to the outside that may raise. *)
Definition call {A} (f : W -> W * (exn + A)) : M A :=
  fun st =>
    let (w, r) := f (world st) in
    let st' := {| world := w; self := self st; trace := trace st |} in
    match r with
    | inl e => (Raise e, st')
    | inr a => (Return a, st')
    end.

End Machine.

Arguments state W : clear implicits.
Arguments M W A : clear implicits.

Declare Scope py_scope.
Delimit Scope py_scope with py.
Notation "x <- c ;; k" := (bind c (fun x => k))
  (at level 61, c at next level, right associativity) : py_scope.
Notation "c ;; k" := (bind c (fun _ => k))
  (at level 61, right associativity) : py_scope.
Open Scope py_scope.

(** ** Bootstrap: [connect_to_server] and [connect_to_servers] *)

Section Bootstrap.
Context {W : Type} {X : Externals W}.

(** [for x in l: body x] *)
Fixpoint for_each {A} (l : list A) (body : A -> M W unit) : M W unit :=
  match l with
  | [] => ret tt
  | x :: rest => body x ;; for_each rest body
  end.

(** [getattr(obj, attr, default)] *)
Definition getattr {A} (field : option A) (default : A) : A :=
  match field with Some v => v | None => default end.

(** [if hasattr(session, 'list_x'): response = await session.list_x()] with
    the test [hasattr(response, 'x')]: the items, or [None] where either
    attribute is missing. *)
Definition enumerate {A} (ev : event) (f : W -> session -> W * listing A)
    (s : session) : M W (option (list A)) :=
  r <- ask (fun w => f w s) ;;
  match r with
  | NoMethod => ret None
  | ListRaises e => emit ev ;; raise e
  | NoField => emit ev ;; ret None
  | Listed items => emit ev ;; ret (Some items)
  end.

(** Lines 44-49. *)
Definition register_tool (s : session) (tool : tool_info) : M W unit :=
  b <- get_self ;;
  set_self {|
    available_tools :=
      available_tools b ++
        [{| td_name := tool_name tool;
            td_description := getattr (tool_description tool) (JStr "");
            td_input_schema := getattr (tool_inputSchema tool) (JObj []) |}];
    available_prompts := available_prompts b;
    sessions := PyDict.set (tool_name tool) s (sessions b) |}.

(** Lines 60-65. *)
Definition register_prompt (s : session) (prompt : prompt_info) : M W unit :=
  b <- get_self ;;
  set_self {|
    available_tools := available_tools b;
    available_prompts :=
      available_prompts b ++
        [{| pd_name := prompt_name prompt;
            pd_description := getattr (prompt_description prompt) (JStr "");
            pd_arguments := getattr (prompt_arguments prompt) [] |}];
    sessions := PyDict.set (prompt_name prompt) s (sessions b) |}.

(** Lines 76-77. *)
Definition register_resource (s : session) (resource : resource_info) : M W unit :=
  b <- get_self ;;
  set_self {|
    available_tools := available_tools b;
    available_prompts := available_prompts b;
    sessions := PyDict.set (resource_uri resource) s (sessions b) |}.

(** Lines 39-52. *)
Definition connect_tools (s : session) : M W unit :=
  try_except
    (r <- enumerate (ListTools s) session_list_tools s ;;
     match r with
     | Some tools =>
         for_each tools (register_tool s) ;;
         print ("  ✓ Found " ++ PyStr.of_nat (List.length tools) ++ " tools")
     | None => ret tt
     end)
    (fun e => print ("  ⚠️ Could not list tools: " ++ str_exn e)).

(** Lines 55-68. An empty list is falsy: nothing is printed for it. *)
Definition connect_prompts (s : session) : M W unit :=
  try_except
    (r <- enumerate (ListPrompts s) session_list_prompts s ;;
     match r with
     | Some (p :: ps) =>
         for_each (p :: ps) (register_prompt s) ;;
         print ("  ✓ Found " ++ PyStr.of_nat (List.length (p :: ps)) ++ " prompts")
     | _ => ret tt
     end)
    (fun e => print ("  ⚠️ Could not list prompts: " ++ str_exn e)).

(** Lines 71-80. *)
Definition connect_resources (s : session) : M W unit :=
  try_except
    (r <- enumerate (ListResources s) session_list_resources s ;;
     match r with
     | Some (u :: us) =>
         for_each (u :: us) (register_resource s) ;;
         print ("  ✓ Found " ++ PyStr.of_nat (List.length (u :: us)) ++ " resources")
     | _ => ret tt
     end)
    (fun e => print ("  ⚠️ Could not list resources: " ++ str_exn e)).

(** [MCP_ChatBot.connect_to_server] *)
Definition connect_to_server (server_name : string) (server_config : json)
  : M W bool :=
  try_except
    (print ("Connecting to " ++ server_name ++ " server...") ;;
     emit (Launch server_name server_config) ;;
     s <- call (fun w => launch w server_name server_config) ;;
     connect_tools s ;;
     connect_prompts s ;;
     connect_resources s ;;
     print ("  ✓ Successfully connected to " ++ server_name) ;;
     ret true)
    (fun e =>
       print ("  ✗ Error connecting to " ++ server_name ++ ": " ++ str_exn e) ;;
       ret false).

(** The strings of an iterable, for [' '.join]; [i] counts the items. *)
Fixpoint str_items (i : nat) (l : list json) : exn + list string :=
  match l with
  | [] => inr []
  | JStr s :: rest =>
      match str_items (S i) rest with
      | inl e => inl e
      | inr ss => inr (s :: ss)
      end
  | v :: _ =>
      inl (TypeError ("sequence item " ++ PyStr.of_nat i ++
                      ": expected str instance, " ++ type_name v ++ " found"))
  end.

(** [' '.join(v)] *)
Definition join_args (v : json) : exn + string :=
  match v with
  | JArr l =>
      match str_items 0 l with
      | inl e => inl e
      | inr ss => inr (PyStr.join " " ss)
      end
  | JStr s => inr (PyStr.join " " (PyStr.chars s))
  | JObj o => inr (PyStr.join " " (PyDict.keys o))
  | _ => inl (TypeError "can only join an iterable")
  end.

(** The f-string of line 105. *)
Definition command_line (server_config : json) : exn + string :=
  match server_config with
  | JObj o =>
      match join_args (getattr (PyDict.get "args" o) (JArr [])) with
      | inl e => inl e
      | inr joined =>
          inr ("Command: " ++ py_str (getattr (PyDict.get "command" o) JNull)
               ++ " " ++ joined)
      end
  | v => inl (no_attribute v "get")
  end.

(** Lines 104-109. *)
Definition connect_entry (entry : string * json) : M W unit :=
  let (server_name, server_config) := entry in
  print (PyStr.nl ++ "Attempting to connect to " ++ server_name ++ "...") ;;
  match command_line server_config with
  | inl e => raise e
  | inr line =>
      print line ;;
      ok <- connect_to_server server_name server_config ;;
      if ok : bool
      then print ("  ✓ Successfully connected to " ++ server_name)
      else print ("  ✗ Error connecting to " ++ server_name)
  end.

(** Lines 92-116: the body of the [try]. *)
Definition load_servers : M W bool :=
  print "Loading server configuration..." ;;
  emit OpenConfig ;;
  config <- call load_config ;;
  match config with
  | JObj o =>
      let servers := getattr (PyDict.get "mcpServers" o) (JObj []) in
      match py_len servers with
      | inl e => raise e
      | inr n =>
          print ("Found " ++ PyStr.of_nat n ++ " server(s) in config") ;;
          if Nat.eqb n 0
          then print "No servers found in configuration" ;; ret false
          else
            match servers with
            | JObj entries =>
                for_each entries connect_entry ;;
                b <- get_self ;;
                match available_tools b with
                | [] => print (PyStr.nl ++ "Warning: No tools were loaded from any server")
                | ts => print (PyStr.nl ++ "Successfully loaded " ++
                               PyStr.of_nat (List.length ts) ++ " tools from all servers")
                end ;;
                ret true
            | v => raise (no_attribute v "items")
            end
      end
  | v => raise (no_attribute v "get")
  end.

(** [MCP_ChatBot.connect_to_servers] *)
Definition connect_to_servers : M W bool :=
  print (PyStr.nl ++ "Initializing MCP servers...") ;;
  try_except load_servers
    (fun e =>
       match e with
       | FileNotFoundError _ =>
           print "Error: server_config.json not found in current directory" ;;
           print "  ✗ Error: server_config.json not found" ;;
           ret false
       | JSONDecodeError _ =>
           print "  ✗ Error: server_config.json contains invalid JSON" ;;
           ret false
       | _ =>
           print ("  ✗ Error loading server config: " ++ str_exn e) ;;
           ret false
       end).

End Bootstrap.

(** ** The tool-use loop: [process_query] *)

Section Conversation.
Context {W : Type} {X : Externals W}.

(** [l[i] = f(l[i])], nothing out of range (the loop never reaches it). *)
Fixpoint update_nth {A} (i : nat) (f : A -> A) (l : list A) : list A :=
  match l, i with
  | [], _ => []
  | x :: rest, 0 => f x :: rest
  | x :: rest, S j => x :: update_nth j f rest
  end.

(** [assistant_content = []]: a new list object, and its address. *)
Definition new_list (t : transcript) : nat * transcript :=
  (List.length (heap t), {| heap := heap t ++ [[]]; messages := messages t |}).

(** [assistant_content.append(content)], on the object at address [a]. *)
Definition list_append (a : nat) (content : segment) (t : transcript)
  : transcript :=
  {| heap := update_nth a (fun l => (l ++ [content])%list) (heap t);
     messages := messages t |}.

(** [messages.append(m)] *)
Definition messages_append (m : message) (t : transcript) : transcript :=
  {| heap := heap t; messages := messages t ++ [m] |}.

(** A message with its content read through the heap. *)
Definition deref (h : list (list segment)) (m : message) : api_message :=
  match m with
  | UserText q => ApiUser q
  | Assistant a => ApiAssistant (nth a h [])
  | ToolResult id c => ApiToolResult id c
  end.

(** [messages] as a request carries it: every content read at that time. *)
Definition view (t : transcript) : list api_message :=
  map (deref (heap t)) (messages t).

(** Lines 143-168: [for content in response.content], with
    [assistant_content] at address [a]. The result is [has_tool_use] and the
    lists as the loop leaves them; [break] is the return without the rest. *)
Fixpoint response_loop (a : nat) (contents : list segment)
    (has_tool_use : bool) (t : transcript) : M W (bool * transcript) :=
  match contents with
  | [] => ret (has_tool_use, t)
  | content :: rest =>
      match content with
      | Text text =>
          print text ;;
          response_loop a rest has_tool_use (list_append a content t)
      | ToolUse id name input =>
          let t1 := messages_append (Assistant a) (list_append a content t) in
          b <- get_self ;;
          match PyDict.get name (sessions b) with
          | None =>
              print ("Tool '" ++ name ++ "' not found.") ;;
              ret (true, t1)
          | Some s =>
              emit (CallTool s name input) ;;
              result <- call (fun w => session_call_tool w s name input) ;;
              response_loop a rest true
                (messages_append (ToolResult id result) t1)
          end
      | OtherBlock _ => response_loop a rest has_tool_use t
      end
  end.

(** Lines 133-172: one turn of [while True]. [inl] is [break], [inr] the
    next turn. The request also carries [max_tokens] and [model], constants. *)
Definition turn (t : transcript) : M W (transcript + transcript) :=
  b <- get_self ;;
  emit (CreateMessage (available_tools b) (view t)) ;;
  response <- call (fun w => messages_create w (available_tools b) (view t)) ;;
  let (a, t0) := new_list t in
  r <- response_loop a response false t0 ;;
  let (has_tool_use, t1) := r in
  if has_tool_use : bool then ret (inr t1) else ret (inl t1).

(** [while True], for at most [fuel] turns. *)
Fixpoint tool_use_loop (fuel : nat) (t : transcript) : M W transcript :=
  match fuel with
  | 0 => unfinished
  | S fuel' =>
      r <- turn t ;;
      match r with
      | inl t' => ret t'
      | inr t' => tool_use_loop fuel' t'
      end
  end.

(** [messages = [{'role':'user', 'content':query}]] *)
Definition initial_transcript (query : string) : transcript :=
  {| heap := []; messages := [UserText query] |}.

(** [MCP_ChatBot.process_query] *)
Definition process_query (fuel : nat) (query : string) : M W unit :=
  tool_use_loop fuel (initial_transcript query) ;; ret tt.

End Conversation.

(** ** Resources and prompts *)

Section Access.
Context {W : Type} {X : Externals W}.

(** Lines 179-182: the first entry, in the order of the dictionary, whose
    key starts with ["papers://"]. *)
Fixpoint first_papers (items : PyDict.t session) : option session :=
  match items with
  | [] => None
  | (uri, sess) :: rest =>
      if PyStr.startswith uri "papers://" then Some sess else first_papers rest
  end.

(** Lines 175-182: the session [get_resource] ends up with. *)
Definition resource_session (d : PyDict.t session) (resource_uri : string)
  : option session :=
  match PyDict.get resource_uri d with
  | Some s => Some s
  | None =>
      if PyStr.startswith resource_uri "papers://" then first_papers d else None
  end.

(** [MCP_ChatBot.get_resource] *)
Definition get_resource (resource_uri : string) : M W unit :=
  b <- get_self ;;
  match resource_session (sessions b) resource_uri with
  | None => print ("Resource '" ++ resource_uri ++ "' not found.")
  | Some s =>
      try_except
        (emit (ReadResource s resource_uri) ;;
         result <- call (fun w => session_read_resource w s resource_uri) ;;
         match result with
         | Some (first :: _) =>
             print (PyStr.nl ++ "Resource: " ++ resource_uri) ;;
             print "Content:" ;;
             match first with
             | TextContents text => print text
             | BlobContents class =>
                 raise (AttributeError
                          ("'" ++ class ++ "' object has no attribute 'text'"))
             end
         | _ => print "No content available."
         end)
        (fun e => print ("Error: " ++ str_exn e))
  end.

(** Lines 211-212. *)
Definition print_argument (arg : prompt_arg) : M W unit :=
  let arg_name :=
    match arg with
    | ArgObject name => name
    | ArgMapping d => getattr (PyDict.get "name" d) ""
    end in
  print ("    - " ++ arg_name).

(** Lines 207-212. *)
Definition print_prompt (prompt : prompt_descriptor) : M W unit :=
  print ("- " ++ pd_name prompt ++ ": " ++ py_str (pd_description prompt)) ;;
  match pd_arguments prompt with
  | [] => ret tt
  | args => print "  Arguments:" ;; for_each args print_argument
  end.

(** [MCP_ChatBot.list_prompts] *)
Definition list_prompts : M W unit :=
  b <- get_self ;;
  match available_prompts b with
  | [] => print "No prompts available."
  | prompts =>
      print (PyStr.nl ++ "Available prompts:") ;;
      for_each prompts print_prompt
  end.

(** Lines 227-234: the text of a prompt's first message. *)
Definition content_text (prompt_content : prompt_content) : string :=
  match prompt_content with
  | ContentStr s => s
  | ContentText text => text
  | ContentItems items =>
      PyStr.join " "
        (map (fun item =>
                match item with ItemText text => text | ItemOther s => s end)
             items)
  end.

(** [MCP_ChatBot.execute_prompt] *)
Definition execute_prompt (fuel : nat) (prompt_name : string)
    (args : PyDict.t string) : M W unit :=
  b <- get_self ;;
  match PyDict.get prompt_name (sessions b) with
  | None => print ("Prompt '" ++ prompt_name ++ "' not found.")
  | Some s =>
      try_except
        (emit (GetPrompt s prompt_name args) ;;
         result <- call (fun w => session_get_prompt w s prompt_name args) ;;
         match result with
         | Some (first :: _) =>
             print (PyStr.nl ++ "Executing prompt '" ++ prompt_name ++ "'...") ;;
             process_query fuel (content_text first)
         | _ => ret tt
         end)
        (fun e => print ("Error: " ++ str_exn e))
  end.

End Access.

(** ** The command dispatcher: [chat_loop] and [main] *)

Section Dispatcher.
Context {W : Type} {X : Externals W}.

(** Lines 312-318: [args] after the loop over [parts[2:]]. *)
Fixpoint parse_args (tokens : list string) (args : PyDict.t string)
  : PyDict.t string :=
  match tokens with
  | [] => args
  | arg :: rest =>
      if PyStr.contains "=" arg
      then let (key, value) := PyStr.split_once "=" arg in
           parse_args rest (PyDict.set key value args)
      else parse_args rest args
  end.

(** How one turn of the input loop ends. *)
Inductive control : Type := Continue | Break.

(** Lines 300-323: a line that starts with ["/"]. *)
Definition slash_command (fuel : nat) (query : string) : M W control :=
  match PyStr.split query with
  | [] => raise (OtherException "list index out of range")
  | part0 :: others =>
      let command := PyStr.lower part0 in
      if String.eqb command "/prompts"
      then list_prompts ;; ret Continue
      else if String.eqb command "/prompt"
      then
        match others with
        | [] =>
            print "Usage: /prompt <name> <arg1=value1> <arg2=value2>" ;;
            ret Continue
        | prompt_name :: tokens =>
            execute_prompt fuel prompt_name (parse_args tokens []) ;;
            ret Continue
        end
      else print ("Unknown command: " ++ command) ;; ret Continue
  end.

(** Lines 289-297: a line that starts with ["@"]. *)
Definition at_resource (query : string) : M W control :=
  let topic := match query with String _ rest => rest | EmptyString => "" end in
  let resource_uri :=
    if String.eqb topic "folders" then "papers://folders"
    else "papers://" ++ topic in
  get_resource resource_uri ;; ret Continue.

(** Lines 271-331: one turn of the input loop, [inp] being what [input]
    does. *)
Definition chat_turn (fuel : nat) (inp : user_input) : M W control :=
  try_except
    (emit (ReadLine (PyStr.nl ++ "Query: ")) ;;
     match inp with
     | EOFError => print (PyStr.nl ++ "Use 'quit' to exit.") ;; ret Continue
     | KeyboardInterrupt =>
         print (PyStr.nl ++ "(To exit, type 'quit' or press Ctrl+D)") ;;
         ret Continue
     | Line s =>
         let query := PyStr.strip s in
         if String.eqb query "" then ret Continue
         else if String.eqb (PyStr.lower query) "quit" then ret Break
         else if PyStr.startswith query "@" then at_resource query
         else if PyStr.startswith query "/" then slash_command fuel query
         else process_query fuel query ;; ret Continue
     end)
    (fun e => print (PyStr.nl ++ "Error: " ++ str_exn e) ;; ret Continue).

(** [while True] over the lines the user will type; with none left the loop
    is waiting. *)
Fixpoint input_loop (fuel : nat) (inputs : list user_input) : M W unit :=
  match inputs with
  | [] => unfinished
  | inp :: rest =>
      c <- chat_turn fuel inp ;;
      match c with
      | Break => ret tt
      | Continue => input_loop fuel rest
      end
  end.

(** [MCP_ChatBot.chat_loop]. The history file and the key bindings of
    [readline] are left out. *)
Definition chat_loop (fuel : nat) (inputs : list user_input) : M W unit :=
  print (PyStr.nl ++ "MCP Chatbot Started!") ;;
  print "Type your queries or 'quit' to exit." ;;
  print "Use @folders to see available topics" ;;
  print "Use @<topic> to search papers in that topic" ;;
  print "Use /prompts to list available prompts" ;;
  print "Use /prompt <name> <arg1=value1> to execute a prompt" ;;
  print "Use Up/Down arrows to navigate command history" ;;
  print ("Press Ctrl+C to cancel input" ++ PyStr.nl) ;;
  input_loop fuel inputs.

(** [MCP_ChatBot.cleanup] *)
Definition cleanup : M W unit :=
  emit Close ;; call aclose.

(** [main] *)
Definition main (fuel : nat) (inputs : list user_input) : M W unit :=
  print (PyStr.nl ++ "=== MCP ChatBot ===") ;;
  set_self new_chatbot ;;
  try_finally
    (try_except
       (ok <- connect_to_servers ;;
        if ok : bool
        then
          print (PyStr.nl ++ "MCP ChatBot Started!") ;;
          print "Type your queries or 'quit' to exit." ;;
          print "Use @folders to see available topics" ;;
          print "Use @<topic> to search papers in that topic" ;;
          print "Use /prompts to list available prompts" ;;
          print ("Use /prompt <name> <arg1=value1> to execute a prompt" ++ PyStr.nl) ;;
          chat_loop fuel inputs
        else print (PyStr.nl ++ "Failed to initialize required servers. Exiting."))
       (fun e => print (PyStr.nl ++ "An error occurred: " ++ str_exn e)))
    cleanup.

(** The state a run of [main] starts from. *)
Definition boot (w : W) : state W :=
  {| world := w; self := new_chatbot; trace := [] |}.

End Dispatcher.

(** ** A scripted world, to run the program on concrete inputs *)

Module Script.

(** A backend: what launching it gives, and what it lists. *)
Record backend := {
  handle : session;
  tools : listing tool_info;
  prompts : listing prompt_info;
  resources : listing resource_info
}.

(** The configuration file, the backends by server name, the answers of the
    model call after call, the tools whose call raises (with ["aclose"] in
    the list the close raises too), and whether the exit stack was closed. *)
Record world := {
  config : exn + json;
  backends : list (string * (exn + backend));
  replies : list (exn + list segment);
  failing : list string;
  closed : bool
}.

Fixpoint backend_of (s : session) (l : list (string * (exn + backend)))
  : option backend :=
  match l with
  | [] => None
  | (_, inr b) :: rest => if Nat.eqb (handle b) s then Some b else backend_of s rest
  | (_, inl _) :: rest => backend_of s rest
  end.

Definition listed {A} (f : backend -> listing A) (w : world) (s : session)
  : world * listing A :=
  (w, match backend_of s (backends w) with Some b => f b | None => NoMethod end).

Definition answer (w : world) : world * (exn + list segment) :=
  match replies w with
  | [] => (w, inr [])
  | r :: rest =>
      ({| config := config w; backends := backends w; replies := rest;
          failing := failing w; closed := closed w |}, r)
  end.

Definition run_tool (w : world) (s : session) (name : string) (input : json)
  : world * (exn + json) :=
  (w, if existsb (String.eqb name) (failing w)
      then inl (OtherException (name ++ " failed"))
      else inr (JStr (name ++ " done"))).

#[global] Instance externals : Externals world := {
  load_config w := (w, config w);
  launch w server_name _ :=
    (w, match PyDict.get server_name (backends w) with
        | Some (inr b) => inr (handle b)
        | Some (inl e) => inl e
        | None => inl (OtherException "no such server")
        end);
  session_list_tools := listed tools;
  session_list_prompts := listed prompts;
  session_list_resources := listed resources;
  messages_create w _ _ := answer w;
  session_call_tool := run_tool;
  session_get_prompt w _ name _ := (w, inr (Some [ContentStr ("about " ++ name)]));
  session_read_resource w _ uri := (w, inr (Some [TextContents ("text of " ++ uri)]));
  aclose w :=
    ({| config := config w; backends := backends w; replies := replies w;
        failing := failing w; closed := true |},
     if existsb (String.eqb "aclose") (failing w)
     then inl (OtherException "aclose failed")
     else inr tt);
  py_repr _ := "<value>"
}.

(** A world with a configuration and a script of answers. *)
Definition make (cfg : json) (bs : list (string * (exn + backend)))
    (rs : list (list segment)) : world :=
  {| config := inr cfg; backends := bs; replies := map inr rs;
     failing := []; closed := false |}.

(** A backend with one tool. *)
Definition one_tool (s : session) (name : string) : backend :=
  {| handle := s;
     tools := Listed [{| tool_name := name; tool_description := None;
                         tool_inputSchema := None |}];
     prompts := NoField; resources := NoField |}.

(** A backend with one prompt. *)
Definition one_prompt (s : session) (name : string) : backend :=
  {| handle := s; tools := Listed [];
     prompts := Listed [{| prompt_name := name; prompt_description := None;
                           prompt_arguments := None |}];
     resources := NoField |}.

(** A backend with one resource. *)
Definition one_resource (s : session) (uri : string) : backend :=
  {| handle := s; tools := Listed []; prompts := Listed [];
     resources := Listed [{| resource_uri := uri |}] |}.

(** A server entry of the configuration file. *)
Definition entry (name : string) : string * json :=
  (name, JObj [("command", JStr "python"); ("args", JArr [JStr (name ++ ".py")])]).

End Script.

(** ** Notions the statements use *)

(** [token] reads [key=value], the [=] being its first one. *)
Definition is_binding (token key value : string) : Prop :=
  token = key ++ "=" ++ value /\ PyStr.contains "=" key = false.

(** The entry a token of a [/prompt] line stands for, if any. *)
Definition binding_of (token : string) : option (string * string) :=
  if PyStr.contains "=" token then Some (PyStr.split_once "=" token) else None.

(** The entries of the tokens, in order. *)
Fixpoint bindings (tokens : list string) : list (string * string) :=
  match tokens with
  | [] => []
  | token :: rest =>
      match binding_of token with
      | Some kv => kv :: bindings rest
      | None => bindings rest
      end
  end.

(** The value of the last entry for [k]. *)
Fixpoint last_value {V} (k : string) (entries : list (string * V)) : option V :=
  match entries with
  | [] => None
  | (k', v) :: rest =>
      match last_value k rest with
      | Some v' => Some v'
      | None => if String.eqb k k' then Some v else None
      end
  end.

(** The state [st] after the events [evs]. *)
Definition after {W} (st : state W) (evs : list event) : state W :=
  {| world := world st; self := self st; trace := trace st ++ evs |}.

Section Notions.
Context {W : Type} {X : Externals W}.

(** The blocks of a response the loop of lines 143-168 goes through: all of
    them, or those up to the first tool request whose name [d] lacks, that
    request included. *)
Fixpoint reached (d : PyDict.t session) (contents : list segment)
  : list segment :=
  match contents with
  | [] => []
  | ToolUse id name input :: rest =>
      match PyDict.get name d with
      | Some _ => ToolUse id name input :: reached d rest
      | None => [ToolUse id name input]
      end
  | c :: rest => c :: reached d rest
  end.

(** A block with one of the two types the loop handles. *)
Definition kept (c : segment) : bool :=
  match c with OtherBlock _ => false | _ => true end.

(** The ids of the tool requests among some blocks, in order. *)
Fixpoint request_ids (contents : list segment) : list string :=
  match contents with
  | [] => []
  | ToolUse id _ _ :: rest => id :: request_ids rest
  | _ :: rest => request_ids rest
  end.

(** The calls the tool requests of a response lead to, in the order of the
    response: those of the requests before the first name [d] lacks. *)
Fixpoint dispatched (d : PyDict.t session) (contents : list segment)
  : list (session * string * json) :=
  match contents with
  | [] => []
  | ToolUse _ name input :: rest =>
      match PyDict.get name d with
      | Some s => (s, name, input) :: dispatched d rest
      | None => []
      end
  | _ :: rest => dispatched d rest
  end.

(** Calls made one after the other, each in the world the one before left:
    the results, or the first exception. *)
Fixpoint call_in_order (w : W) (calls : list (session * string * json))
  : W * (exn + list json) :=
  match calls with
  | [] => (w, inr [])
  | (s, name, input) :: rest =>
      match session_call_tool w s name input with
      | (w1, inl e) => (w1, inl e)
      | (w1, inr v) =>
          match call_in_order w1 rest with
          | (w2, inl e) => (w2, inl e)
          | (w2, inr vs) => (w2, inr (v :: vs))
          end
      end
  end.

(** For each request an assistant message that holds the list at [a], then
    the result of the request, as long as there are results. *)
Fixpoint pair_up (a : nat) (ids : list string) (results : list json)
  : list message :=
  match ids with
  | [] => []
  | id :: ids' =>
      Assistant a ::
      match results with
      | [] => []
      | r :: results' => ToolResult id r :: pair_up a ids' results'
      end
  end.

(** What a block makes visible. *)
Definition block_events (d : PyDict.t session) (c : segment) : list event :=
  match c with
  | Text text => [Print text]
  | ToolUse _ name input =>
      match PyDict.get name d with
      | Some s => [CallTool s name input]
      | None => [Print ("Tool '" ++ name ++ "' not found.")]
      end
  | OtherBlock _ => []
  end.

(** The list at address [a] grown by [cs]. *)
Definition extend (a : nat) (cs : list segment) (h : list (list segment))
  : list (list segment) :=
  update_nth a (fun l => (l ++ cs)%list) h.

(** The lists of [process_query] after a turn on [response] whose calls gave
    [results]. *)
Definition after_response (d : PyDict.t session) (response : list segment)
    (results : list json) (t : transcript) : transcript :=
  {| heap := heap t ++ [filter kept (reached d response)];
     messages := messages t ++
       pair_up (List.length (heap t)) (request_ids (reached d response)) results |}.

(** [n] turns in a row, each of which went on to the next. *)
Inductive resubmits : nat -> transcript -> state W -> transcript -> state W -> Prop :=
| resubmits_none t st : resubmits 0 t st t st
| resubmits_more n t st t1 st1 t2 st2 :
    turn t st = (Return (inr t1), st1) ->
    resubmits n t1 st1 t2 st2 ->
    resubmits (S n) t st t2 st2.

(** Every assistant message of [t] points into its heap. *)
Definition well_formed (t : transcript) : Prop :=
  forall a, In (Assistant a) (messages t) -> a < List.length (heap t).

End Notions.

(** The tool requests of a response, in order: id, name and input. *)
Fixpoint requests (contents : list segment) : list (string * string * json) :=
  match contents with
  | [] => []
  | ToolUse id name input :: rest => (id, name, input) :: requests rest
  | _ :: rest => requests rest
  end.

(** The calls to tools among some events, in order. *)
Fixpoint calls_of (evs : list event) : list (session * string * json) :=
  match evs with
  | [] => []
  | CallTool s name input :: rest => (s, name, input) :: calls_of rest
  | _ :: rest => calls_of rest
  end.

(** The tool results among some messages, in order: id and content. *)
Fixpoint results_of (msgs : list message) : list (string * json) :=
  match msgs with
  | [] => []
  | ToolResult id content :: rest => (id, content) :: results_of rest
  | _ :: rest => results_of rest
  end.

Definition is_assistant (m : message) : bool :=
  match m with Assistant _ => true | _ => false end.

(** The calls some requests lead to, one per request and in their order, up
    to the first request whose name [d] lacks. *)
Fixpoint routed (d : PyDict.t session) (reqs : list (string * string * json))
  : list (session * string * json) :=
  match reqs with
  | [] => []
  | (_, name, input) :: rest =>
      match PyDict.get name d with
      | Some s => (s, name, input) :: routed d rest
      | None => []
      end
  end.

(** A block that is no tool request, or one whose name [d] holds. *)
Definition resolved (d : PyDict.t session) (c : segment) : bool :=
  match c with
  | ToolUse _ name _ =>
      match PyDict.get name d with Some _ => true | None => false end
  | _ => true
  end.

(** What a backend that was launched lists: the items of each listing that
    came back, none for a listing that is missing or raised. *)
Record capabilities := {
  cap_session : session;
  cap_tools : list tool_info;
  cap_prompts : list prompt_info;
  cap_resources : list resource_info
}.

(** The keys a backend registers, in the order it registers them. *)
Definition cap_keys (c : capabilities) : list string :=
  (map tool_name (cap_tools c) ++ map prompt_name (cap_prompts c)
   ++ map resource_uri (cap_resources c))%list.

Definition items {A} (l : listing A) : list A :=
  match l with Listed l' => l' | _ => [] end.

(** [d[k] = s] for every key, in order. *)
Fixpoint register (s : session) (keys : list string) (d : PyDict.t session)
  : PyDict.t session :=
  match keys with
  | [] => d
  | k :: rest => register s rest (PyDict.set k s d)
  end.

Definition tool_entry (tool : tool_info) : tool_descriptor :=
  {| td_name := tool_name tool;
     td_description := getattr (tool_description tool) (JStr "");
     td_input_schema := getattr (tool_inputSchema tool) (JObj []) |}.

Definition prompt_entry (prompt : prompt_info) : prompt_descriptor :=
  {| pd_name := prompt_name prompt;
     pd_description := getattr (prompt_description prompt) (JStr "");
     pd_arguments := getattr (prompt_arguments prompt) [] |}.

(** The object after a backend with the capabilities [c] is connected. *)
Definition registered (c : capabilities) (b : chatbot) : chatbot :=
  {| available_tools := available_tools b ++ map tool_entry (cap_tools c);
     available_prompts := available_prompts b ++ map prompt_entry (cap_prompts c);
     sessions := register (cap_session c) (cap_keys c) (sessions b) |}.

(** The session of the last of some backends, in the order they were
    connected, that registered [k]. *)
Fixpoint last_registrant (k : string) (regs : list capabilities)
  : option session :=
  match regs with
  | [] => None
  | c :: rest =>
      match last_registrant k rest with
      | Some s => Some s
      | None =>
          if existsb (String.eqb k) (cap_keys c)
          then Some (cap_session c) else None
      end
  end.

Section Registry.
Context {W : Type} {X : Externals W}.

(** Launching a backend and asking it for its three lists, in the order of
    [connect_to_server]: nothing if the launch raises. *)
Definition probe (w : W) (server_name : string) (server_config : json)
  : W * option capabilities :=
  match launch w server_name server_config with
  | (w1, inl _) => (w1, None)
  | (w1, inr s) =>
      let (w2, lt) := session_list_tools w1 s in
      let (w3, lp) := session_list_prompts w2 s in
      let (w4, lr) := session_list_resources w3 s in
      (w4, Some {| cap_session := s; cap_tools := items lt;
                   cap_prompts := items lp; cap_resources := items lr |})
  end.

(** The backends of the configuration that connect, in its order, each with
    what it lists. *)
Fixpoint registrations (w : W) (entries : list (string * json))
  : list capabilities :=
  match entries with
  | [] => []
  | (server_name, server_config) :: rest =>
      match probe w server_name server_config with
      | (w', Some c) => c :: registrations w' rest
      | (w', None) => registrations w' rest
      end
  end.

End Registry.

(** ** Scenarios *)

Module Scenario.

(** A configuration file whose [mcpServers] is empty. *)
Definition no_servers : Script.world :=
  Script.make (JObj [("mcpServers", JObj [])]) [] [].

(** An object whose registry holds the tool ["t"], on session 1. *)
Definition with_tool : chatbot :=
  {| available_tools :=
       [{| td_name := "t"; td_description := JStr ""; td_input_schema := JObj [] |}];
     available_prompts := [];
     sessions := [("t", 1)] |}.

(** The model asks for the tool twice in one answer, then stops. *)
Definition two_requests : list segment :=
  [ToolUse "id1" "t" JNull; Text "x"; ToolUse "id2" "t" JNull].

Definition asks_twice : state Script.world :=
  {| world := Script.make JNull [] [two_requests; [Text "done"]];
     self := with_tool; trace := [] |}.

(** The model asks for the tool, then for a tool nobody registered, then
    for the tool again. *)
Definition before_missing : list segment := [Text "a"; ToolUse "id1" "t" JNull].

Definition after_missing : list segment := [ToolUse "id3" "t" JNull].

Definition asks_missing : state Script.world :=
  {| world :=
       Script.make JNull []
         [(before_missing ++ ToolUse "id2" "missing" JNull :: after_missing)%list;
          [Text "done"]];
     self := with_tool; trace := [] |}.

(** Two servers that both list a tool ["t"]. *)
Definition same_tool : state Script.world :=
  boot (Script.make
          (JObj [("mcpServers", JObj [Script.entry "a"; Script.entry "b"])])
          [("a", inr (Script.one_tool 1 "t")); ("b", inr (Script.one_tool 2 "t"))]
          []).

(** The tool ["t"] is registered on session 1; server ["b"] lists a prompt
    ["t"]. *)
Definition prompt_named_as_tool : state Script.world :=
  {| world := Script.make JNull [("b", inr (Script.one_prompt 2 "t"))] [];
     self := with_tool; trace := [] |}.

End Scenario.

(** ** Behaviours of a computation *)

Section Behaviours.
Context {W : Type} {X : Externals W}.

(** [st'] comes after [st]: the object is the same and the trace has only
    grown. *)
Definition follows (st st' : state W) : Prop :=
  self st' = self st /\ exists evs, trace st' = (trace st ++ evs)%list.

(** A computation that leaves [self] alone and only adds to the trace. *)
Definition read_only {A} (m : M W A) : Prop :=
  forall st, follows st (snd (m st)).


(** A computation that always returns. *)
Definition returns {A} (m : M W A) : Prop :=
  forall st, exists a st', m st = (Return a, st').

(** A computation that prints some lines and does nothing else. *)
Definition only_prints (m : M W unit) : Prop :=
  forall st, exists lines, m st = (Return tt, after st (map Print lines)).

End Behaviours.

(** Every tool and prompt the object lists has its name in the registry. *)
Definition names_resolve (b : chatbot) : Prop :=
  (forall td, In td (available_tools b) ->
              PyDict.get (td_name td) (sessions b) <> None)
  /\ (forall pd, In pd (available_prompts b) ->
                 PyDict.get (pd_name pd) (sessions b) <> None).

(** A computation that keeps a property of the object, however it ends. *)
Definition keeps {W : Type} {A : Type} (P : chatbot -> Prop) (m : M W A) : Prop :=
  forall st, P (self st) -> P (self (snd (m st))).

(** The texts among some blocks, in order. *)
Fixpoint texts (contents : list segment) : list string :=
  match contents with
  | [] => []
  | Text text :: rest => text :: texts rest
  | _ :: rest => texts rest
  end.


(** The prompt of [input]. *)
Definition query_prompt : event := ReadLine (PyStr.nl ++ "Query: ").

Section PromptLines.
Context {W : Type} {X : Externals W}.

(** The name [list_prompts] shows for an argument. *)
Definition shown_name (arg : prompt_arg) : string :=
  match arg with
  | ArgObject name => name
  | ArgMapping d => getattr (PyDict.get "name" d) ""
  end.

(** The lines [list_prompts] shows for a prompt. *)
Definition prompt_lines (prompt : prompt_descriptor) : list string :=
  ("- " ++ pd_name prompt ++ ": " ++ py_str (pd_description prompt)) ::
  match pd_arguments prompt with
  | [] => []
  | args => "  Arguments:" :: map (fun arg => "    - " ++ shown_name arg) args
  end.

(** The lines [list_prompts] shows for the prompts of the object. *)
Definition listing_lines (prompts : list prompt_descriptor) : list string :=
  match prompts with
  | [] => ["No prompts available."]
  | _ => (PyStr.nl ++ "Available prompts:") :: flat_map prompt_lines prompts
  end.

End PromptLines.

(** ** More scenarios *)

Module Scenario2.

(** No configuration file. *)
Definition no_file : Script.world :=
  {| Script.config := inl (FileNotFoundError "server_config.json");
     Script.backends := []; Script.replies := []; Script.failing := [];
     Script.closed := false |}.

(** A backend whose [list_tools] raises, with one prompt. *)
Definition broken_tools : Script.backend :=
  {| Script.handle := 3;
     Script.tools := ListRaises (OtherException "boom");
     Script.prompts := Listed [{| prompt_name := "p"; prompt_description := None;
                                  prompt_arguments := None |}];
     Script.resources := NoField |}.

Definition with_broken_tools : state Script.world :=
  boot (Script.make JNull [("c", inr broken_tools)] []).

(** Three entries, the second of which is a string. *)
Definition second_is_malformed : state Script.world :=
  boot (Script.make
          (JObj [("mcpServers",
                  JObj [Script.entry "a"; ("b", JStr "oops"); Script.entry "c"])])
          [("a", inr (Script.one_tool 1 "t")); ("c", inr (Script.one_tool 2 "u"))]
          []).

(** The model answers with two texts. *)
Definition answers_plainly : state Script.world :=
  {| world := Script.make JNull [] [[Text "hi"; Text "there"]];
     self := Scenario.with_tool; trace := [] |}.


(** The registry holds the folder listing, on session 2. *)
Definition with_folders : state Script.world :=
  {| world := Script.make JNull [] [];
     self := {| available_tools := []; available_prompts := [];
                sessions := [("papers://folders", 2)] |};
     trace := [] |}.


End Scenario2.

(** How [main] ends once it has tried the close in the world [w]: with the
    exception of the close, if the close raises. *)
Definition closed_outcome {W : Type} {X : Externals W} (w : W) : outcome unit :=
  match snd (aclose w) with
  | inl e => Raise e
  | inr _ => Return tt
  end.

(** * Properties *)

Unset Implicit Arguments.

(** ** Dictionaries *)

Section DictFacts.
Variable V : Type.

Lemma get_set_same (k : string) (v : V) (d : PyDict.t V) :
  PyDict.get k (PyDict.set k v d) = Some v.
Proof.
  induction d as [|[k' v'] d IH]; simpl.
  - now rewrite String.eqb_refl.
  - destruct (String.eqb k k') eqn:E; simpl; rewrite E; auto.
Qed.

Lemma get_set_other (k k' : string) (v : V) (d : PyDict.t V) :
  k <> k' -> PyDict.get k' (PyDict.set k v d) = PyDict.get k' d.
Proof.
  intros Hne. induction d as [|[k0 v0] d IH]; simpl.
  - destruct (String.eqb k' k) eqn:E; auto.
    apply String.eqb_eq in E. congruence.
  - destruct (String.eqb k k0) eqn:E; simpl.
    + apply String.eqb_eq in E. subst k0.
      destruct (String.eqb k' k) eqn:E'; auto.
      apply String.eqb_eq in E'. congruence.
    + now rewrite IH.
Qed.

Lemma get_set (k k' : string) (v : V) (d : PyDict.t V) :
  PyDict.get k' (PyDict.set k v d) =
  if String.eqb k' k then Some v else PyDict.get k' d.
Proof.
  destruct (String.eqb k' k) eqn:E.
  - apply String.eqb_eq in E. subst. apply get_set_same.
  - apply String.eqb_neq in E. apply get_set_other. congruence.
Qed.

End DictFacts.

(** ** The arguments of [/prompt] *)

Lemma split_once_binding (token : string) :
  PyStr.contains "=" token = true ->
  let (key, value) := PyStr.split_once "=" token in is_binding token key value.
Proof.
  induction token as [|c token IH]; cbn [PyStr.contains PyStr.split_once];
    [discriminate|].
  destruct (Ascii.eqb "=" c) eqn:E; cbn [orb].
  - intros _. apply Ascii.eqb_eq in E. subst c. split; reflexivity.
  - intros H. specialize (IH H).
    destruct (PyStr.split_once "=" token) as [key value].
    destruct IH as [-> Hk]. split; [reflexivity|].
    cbn [PyStr.contains]. now rewrite E.
Qed.

Lemma binding_split_once (key value : string) :
  PyStr.contains "=" key = false ->
  PyStr.contains "=" (key ++ "=" ++ value) = true /\
  PyStr.split_once "=" (key ++ "=" ++ value) = (key, value).
Proof.
  induction key as [|c key IH];
    cbn [PyStr.contains PyStr.split_once String.append].
  - intros _. split; reflexivity.
  - destruct (Ascii.eqb "=" c) eqn:E; cbn [orb]; [discriminate|].
    intros H. destruct (IH H) as [H1 H2].
    cbn [String.append] in H1, H2. split; [exact H1|].
    now rewrite H2.
Qed.

Lemma binding_of_spec (token key value : string) :
  binding_of token = Some (key, value) <-> is_binding token key value.
Proof.
  unfold binding_of. split.
  - destruct (PyStr.contains "=" token) eqn:E; [|discriminate].
    intros H. injection H as H. pose proof (split_once_binding token E) as B.
    rewrite H in B. exact B.
  - intros [-> Hk]. destruct (binding_split_once key value Hk) as [H1 H2].
    now rewrite H1, H2.
Qed.

Lemma parse_args_get (tokens : list string) (args : PyDict.t string) (k : string) :
  PyDict.get k (parse_args tokens args) =
  match last_value k (bindings tokens) with
  | Some v => Some v
  | None => PyDict.get k args
  end.
Proof.
  revert args. induction tokens as [|token tokens IH]; intros args; simpl.
  - reflexivity.
  - unfold binding_of. destruct (PyStr.contains "=" token); [|apply IH].
    destruct (PyStr.split_once "=" token) as [key value]. simpl.
    rewrite IH. destruct (last_value k (bindings tokens)); [reflexivity|].
    rewrite get_set. now destruct (String.eqb k key).
Qed.

(** C8. The arguments of a [/prompt] line: every key of the mapping holds the
    value of the last token [key=value] with that key, the [=] being the
    first of the token; a token without [=] adds nothing; and the three
    lines of the specification give [{a: 1, b: 2}], [{a: 2}] and [{}]. *)
Theorem C8_prompt_arguments :
  (forall tokens k,
      PyDict.get k (parse_args tokens []) = last_value k (bindings tokens))
  /\ (forall token key value,
         binding_of token = Some (key, value) <-> is_binding token key value)
  /\ (forall token tokens args,
         PyStr.contains "=" token = false ->
         parse_args (token :: tokens) args = parse_args tokens args)
  /\ (forall (W : Type) (X : Externals W) fuel,
         slash_command fuel "/prompt foo a=1 b=2" =
           (execute_prompt fuel "foo" [("a", "1"); ("b", "2")] ;; ret Continue)
         /\ slash_command fuel "/prompt foo a=1 a=2" =
              (execute_prompt fuel "foo" [("a", "2")] ;; ret Continue)
         /\ slash_command fuel "/prompt foo bare" =
              (execute_prompt fuel "foo" [] ;; ret Continue)).
Proof.
  split; [|split; [|split]].
  - intros tokens k. rewrite parse_args_get.
    now destruct (last_value k (bindings tokens)).
  - apply binding_of_spec.
  - intros token tokens args H. simpl. now rewrite H.
  - intros W X fuel. repeat split; reflexivity.
Qed.

(** C10. The line [/prompt] alone: the usage message is printed, the world,
    the object and the rest of the trace are left as they were (no lookup in
    [self.sessions], no call to a backend or to the model), and the loop goes
    on to the next line. *)
Theorem C10_prompt_without_name :
  forall (W : Type) (X : Externals W) (fuel : nat) (st : state W)
         (rest : list user_input),
    let st' := after st [ReadLine (PyStr.nl ++ "Query: ");
                         Print "Usage: /prompt <name> <arg1=value1> <arg2=value2>"] in
    chat_turn fuel (Line "/prompt") st = (Return Continue, st')
    /\ input_loop fuel (Line "/prompt" :: rest) st = input_loop fuel rest st'.
Proof.
  intros W X fuel st rest st'. subst st'.
  assert (H : chat_turn fuel (Line "/prompt") st =
              (Return Continue,
               after st [ReadLine (PyStr.nl ++ "Query: ");
                         Print "Usage: /prompt <name> <arg1=value1> <arg2=value2>"])).
  { destruct st as [w b tr]. unfold chat_turn, try_except, bind, emit, after.
    simpl. unfold print, emit, bind, ret. simpl.
    now rewrite <- app_assoc. }
  split; [exact H|].
  simpl. unfold bind at 1. now rewrite H.
Qed.

(** ** One response *)

Section ResponseFacts.
Context {W : Type} {X : Externals W}.

Lemma extend_nil (a : nat) (h : list (list segment)) : extend a [] h = h.
Proof.
  unfold extend. revert a. induction h as [|l h IH]; intros [|a]; simpl; auto.
  - now rewrite app_nil_r.
  - now rewrite IH.
Qed.

Lemma extend_extend (a : nat) (xs ys : list segment) (h : list (list segment)) :
  extend a ys (extend a xs h) = extend a (xs ++ ys) h.
Proof.
  unfold extend. revert a. induction h as [|l h IH]; intros [|a]; simpl; auto.
  - now rewrite app_assoc.
  - now rewrite IH.
Qed.

Lemma extend_fresh (cs : list segment) (h : list (list segment)) :
  extend (List.length h) cs (h ++ [[]]) = (h ++ [cs])%list.
Proof.
  unfold extend. induction h as [|l h IH]; simpl; auto. now rewrite IH.
Qed.

Lemma heap_list_append (a : nat) (c : segment) (t : transcript) :
  heap (list_append a c t) = extend a [c] (heap t).
Proof. reflexivity. Qed.

Lemma has_tool_use_reached (d : PyDict.t session) (contents : list segment) :
  existsb is_tool_use (reached d contents) = existsb is_tool_use contents.
Proof.
  induction contents as [|[text|id name input|ty] rest IH]; simpl; auto.
  destruct (PyDict.get name d); reflexivity.
Qed.

(** The loop over a response whose calls all return. *)
Lemma response_loop_returns (a : nat) (contents : list segment) :
  forall (h : bool) (t : transcript) (st : state W) (w' : W) (rs : list json),
    call_in_order (world st) (dispatched (sessions (self st)) contents)
      = (w', inr rs) ->
    response_loop a contents h t st =
      (Return
         (h || existsb is_tool_use contents,
          {| heap := extend a (filter kept (reached (sessions (self st)) contents))
                       (heap t);
             messages := messages t ++
               pair_up a (request_ids (reached (sessions (self st)) contents)) rs |}),
       {| world := w'; self := self st;
          trace := trace st ++
            flat_map (block_events (sessions (self st)))
                     (reached (sessions (self st)) contents) |}).
Proof.
  induction contents as [|c rest IH]; intros h t [w b tr] w' rs Hcalls;
    cbn [world self trace] in *.
  - simpl in Hcalls. injection Hcalls as <- <-.
    destruct t. simpl. unfold ret.
    now rewrite extend_nil, !app_nil_r, orb_false_r.
  - destruct c as [text|id name input|ty].
    + simpl in Hcalls.
      cbn [response_loop]. unfold bind at 1, print, emit.
      cbn [world self trace].
      rewrite (IH h _ {| world := w; self := b; trace := tr ++ [Print text] |}
                  w' rs Hcalls).
      rewrite heap_list_append, extend_extend.
      cbn [world self trace messages list_append reached filter kept
        flat_map block_events existsb is_tool_use orb request_ids app].
      now rewrite <- app_assoc.
    + cbn [response_loop]. unfold bind at 1, get_self.
      cbn [dispatched] in Hcalls. cbn [reached world self trace].
      destruct (PyDict.get name (sessions b)) as [s|] eqn:Hget.
      * cbn [call_in_order] in Hcalls.
        unfold bind at 1, emit. unfold bind at 1, call.
        cbn [world self trace].
        destruct (session_call_tool w s name input) as [w1 [e|v]];
          [discriminate|].
        destruct (call_in_order w1 (dispatched (sessions b) rest))
          as [w2 [e|vs]] eqn:Hrest; [discriminate|].
        injection Hcalls as <- <-.
        rewrite (IH true _ {| world := w1; self := b;
                              trace := tr ++ [CallTool s name input] |}
                    w2 vs Hrest).
        change (heap (messages_append (ToolResult id v)
                        (messages_append (Assistant a)
                           (list_append a (ToolUse id name input) t))))
          with (heap (list_append a (ToolUse id name input) t)).
        rewrite heap_list_append, extend_extend.
        cbn [world self trace messages list_append messages_append
          filter kept flat_map block_events existsb is_tool_use orb
          request_ids pair_up app].
        rewrite Hget, <- !app_assoc, orb_true_r. reflexivity.
      * cbn [call_in_order] in Hcalls. injection Hcalls as <- <-.
        unfold bind, print, emit, ret.
        cbn [world self trace heap messages list_append messages_append
          filter kept flat_map block_events existsb is_tool_use orb
          request_ids pair_up app].
        rewrite Hget, app_nil_r, orb_true_r. reflexivity.
    + simpl in Hcalls. cbn [response_loop].
      rewrite (IH h _ {| world := w; self := b; trace := tr |} w' rs Hcalls).
      reflexivity.
Qed.

(** The loop over a response one of whose calls raises. *)
Lemma response_loop_raises (a : nat) (contents : list segment) :
  forall (h : bool) (t : transcript) (st : state W) (w' : W) (e : exn),
    call_in_order (world st) (dispatched (sessions (self st)) contents)
      = (w', inl e) ->
    fst (response_loop a contents h t st) = Raise e.
Proof.
  induction contents as [|c rest IH]; intros h t [w b tr] w' e Hcalls;
    cbn [world self trace] in *.
  - discriminate.
  - destruct c as [text|id name input|ty].
    + simpl in Hcalls. cbn [response_loop]. unfold bind at 1, print, emit.
      cbn [world self trace].
      apply (IH _ _ {| world := w; self := b; trace := tr ++ [Print text] |} w').
      exact Hcalls.
    + cbn [response_loop]. unfold bind at 1, get_self.
      cbn [dispatched] in Hcalls. cbn [world self trace].
      destruct (PyDict.get name (sessions b)) as [s|]; [|discriminate].
      cbn [call_in_order] in Hcalls.
      unfold bind at 1, emit. unfold bind at 1, call. cbn [world self trace].
      destruct (session_call_tool w s name input) as [w1 [e1|v]].
      * injection Hcalls as _ <-. reflexivity.
      * destruct (call_in_order w1 (dispatched (sessions b) rest))
          as [w2 [e2|vs]] eqn:Hrest; [|discriminate].
        injection Hcalls as _ <-.
        apply (IH _ _ {| world := w1; self := b;
                         trace := tr ++ [CallTool s name input] |} w2).
        exact Hrest.
    + simpl in Hcalls. cbn [response_loop].
      apply (IH _ _ {| world := w; self := b; trace := tr |} w'). exact Hcalls.
Qed.

End ResponseFacts.

(** ** One turn and the loop *)

Section TurnFacts.
Context {W : Type} {X : Externals W}.

(** A turn whose request is answered and whose calls all return. *)
Lemma turn_returns (t : transcript) (st : state W) (w1 w' : W)
    (response : list segment) (rs : list json) :
  messages_create (world st) (available_tools (self st)) (view t)
    = (w1, inr response) ->
  call_in_order w1 (dispatched (sessions (self st)) response) = (w', inr rs) ->
  turn t st =
    (Return (if existsb is_tool_use response
             then inr (after_response (sessions (self st)) response rs t)
             else inl (after_response (sessions (self st)) response rs t)),
     {| world := w'; self := self st;
        trace := trace st ++
          CreateMessage (available_tools (self st)) (view t) ::
          flat_map (block_events (sessions (self st)))
                   (reached (sessions (self st)) response) |}).
Proof.
  destruct st as [w b tr]. cbn [world self trace]. intros Hcreate Hcalls.
  unfold turn. unfold bind at 1, get_self. unfold bind at 1, emit.
  unfold bind at 1, call. cbn [world self trace]. rewrite Hcreate.
  unfold new_list. unfold bind at 1.
  rewrite (response_loop_returns (List.length (heap t)) response false
             {| heap := heap t ++ [[]]; messages := messages t |}
             {| world := w1; self := b;
                trace := tr ++ [CreateMessage (available_tools b) (view t)] |}
             w' rs Hcalls).
  cbn [world self trace heap messages orb]. rewrite extend_fresh.
  unfold after_response, ret. rewrite <- app_assoc.
  destruct (existsb is_tool_use response); reflexivity.
Qed.

(** A turn one of whose calls raises. *)
Lemma turn_raises (t : transcript) (st : state W) (w1 w' : W)
    (response : list segment) (e : exn) :
  messages_create (world st) (available_tools (self st)) (view t)
    = (w1, inr response) ->
  call_in_order w1 (dispatched (sessions (self st)) response) = (w', inl e) ->
  fst (turn t st) = Raise e.
Proof.
  destruct st as [w b tr]. cbn [world self trace]. intros Hcreate Hcalls.
  unfold turn. unfold bind at 1, get_self. unfold bind at 1, emit.
  unfold bind at 1, call. cbn [world self trace]. rewrite Hcreate.
  unfold new_list. unfold bind at 1.
  pose proof (response_loop_raises (List.length (heap t)) response false
             {| heap := heap t ++ [[]]; messages := messages t |}
             {| world := w1; self := b;
                trace := tr ++ [CreateMessage (available_tools b) (view t)] |}
             w' e Hcalls) as Hr.
  destruct (response_loop _ _ _ _ _) as [[r|e'|] st1]; simpl in Hr |- *;
    try discriminate.
  now injection Hr as ->.
Qed.

Lemma no_tool_use (d : PyDict.t session) (response : list segment) :
  existsb is_tool_use response = false ->
  dispatched d response = [] /\ reached d response = response
  /\ request_ids response = [].
Proof.
  induction response as [|[text|id name input|ty] rest IH]; simpl; auto.
  - intros H. destruct (IH H) as (H1 & H2 & H3). now rewrite H2.
  - discriminate.
  - intros H. destruct (IH H) as (H1 & H2 & H3). now rewrite H2.
Qed.

Lemma tool_use_loop_step (fuel : nat) (t : transcript) (st : state W) :
  tool_use_loop (S fuel) t st =
    match turn t st with
    | (Return (inl t'), st') => (Return t', st')
    | (Return (inr t'), st') => tool_use_loop fuel t' st'
    | (Raise e, st') => (Raise e, st')
    | (Unfinished, st') => (Unfinished, st')
    end.
Proof.
  cbn [tool_use_loop]. unfold bind.
  destruct (turn t st) as [[[t'|t']|e|] st']; reflexivity.
Qed.

Lemma resubmits_loop (n : nat) (t tn : transcript) (st stn : state W) :
  resubmits n t st tn stn ->
  forall fuel, tool_use_loop (n + fuel) t st = tool_use_loop fuel tn stn.
Proof.
  induction 1 as [|n t st t1 st1 t2 st2 Hturn _ IH]; intros fuel.
  - reflexivity.
  - cbn [Nat.add]. rewrite tool_use_loop_step, Hturn. apply IH.
Qed.

Lemma loop_return_inv (fuel : nat) :
  forall (t t' : transcript) (st st' : state W),
    tool_use_loop fuel t st = (Return t', st') ->
    exists n tn stn,
      n < fuel /\ resubmits n t st tn stn
      /\ turn tn stn = (Return (inl t'), st').
Proof.
  induction fuel as [|fuel IH]; intros t t' st st' H.
  - discriminate.
  - rewrite tool_use_loop_step in H.
    destruct (turn t st) as [[[t1|t1]|e|] st1] eqn:Hturn; try discriminate.
    + injection H as <- <-. exists 0, t, st. repeat split; [lia|constructor|assumption].
    + destruct (IH _ _ _ _ H) as (n & tn & stn & Hn & Hre & Hlast).
      exists (S n), tn, stn. repeat split; [lia| |assumption].
      econstructor; eassumption.
Qed.

End TurnFacts.

(** C4. The loop of [process_query] returns as soon as an answer of the
    model holds no tool request: after [n] turns that went on, a turn whose
    answer has none is the last, for any fuel above [n]. A turn whose answer
    holds a tool request never takes the exit of lines 171-172: it goes on to
    the next request to the model whenever its calls return (an exception of
    a call leaves the query, as any exception does). And the loop returns
    only from a turn whose answer held no tool request. *)
Theorem C4_loop_ends_without_tool_request :
  forall (W : Type) (X : Externals W) (t : transcript) (st : state W),
    (forall n tn stn w1 response fuel,
        resubmits n t st tn stn ->
        messages_create (world stn) (available_tools (self stn)) (view tn)
          = (w1, inr response) ->
        existsb is_tool_use response = false ->
        n < fuel ->
        exists t' st',
          turn tn stn = (Return (inl t'), st')
          /\ tool_use_loop fuel t st = (Return t', st')
          /\ messages t' = messages tn
          /\ (forall query, t = initial_transcript query ->
                            fst (process_query fuel query st) = Return tt))
    /\ (forall w1 response,
           messages_create (world st) (available_tools (self st)) (view t)
             = (w1, inr response) ->
           existsb is_tool_use response = true ->
           (forall t' st', turn t st <> (Return (inl t'), st'))
           /\ (forall w' rs,
                  call_in_order w1 (dispatched (sessions (self st)) response)
                    = (w', inr rs) ->
                  exists t' st',
                    turn t st = (Return (inr t'), st')
                    /\ forall fuel,
                         tool_use_loop (S fuel) t st = tool_use_loop fuel t' st'))
    /\ (forall fuel t' st',
           tool_use_loop fuel t st = (Return t', st') ->
           exists n tn stn w1 response,
             n < fuel /\ resubmits n t st tn stn
             /\ turn tn stn = (Return (inl t'), st')
             /\ messages_create (world stn) (available_tools (self stn)) (view tn)
                  = (w1, inr response)
             /\ existsb is_tool_use response = false).
Proof.
  intros W X t st. split; [|split].
  - intros n tn stn w1 response fuel Hre Hcreate Hnone Hlt.
    destruct (no_tool_use (sessions (self stn)) response Hnone) as (Hd & Hr & Hi).
    assert (Hcalls : call_in_order w1 (dispatched (sessions (self stn)) response)
                     = (w1, inr [])) by now rewrite Hd.
    pose proof (turn_returns tn stn _ _ _ _ Hcreate Hcalls) as Hturn.
    rewrite Hnone in Hturn.
    assert (Hloop : tool_use_loop fuel t st =
              (Return (after_response (sessions (self stn)) response [] tn),
               {| world := w1; self := self stn;
                  trace := trace stn ++
                    CreateMessage (available_tools (self stn)) (view tn) ::
                    flat_map (block_events (sessions (self stn)))
                      (reached (sessions (self stn)) response) |})).
    { replace fuel with (n + S (fuel - S n)) by lia.
      rewrite (resubmits_loop _ _ _ _ _ Hre), tool_use_loop_step, Hturn.
      reflexivity. }
    eexists. eexists. split; [exact Hturn|]. split; [exact Hloop|]. split.
    + unfold after_response. cbn [messages]. rewrite Hr, Hi. cbn [pair_up].
      apply app_nil_r.
    + intros query ->. unfold process_query, bind. rewrite Hloop. reflexivity.
  - intros w1 response Hcreate Hsome. split.
    + intros t' st' Hturn.
      destruct (call_in_order w1 (dispatched (sessions (self st)) response))
        as [w' [e|rs]] eqn:Hcalls.
      * pose proof (turn_raises t st _ _ _ _ Hcreate Hcalls) as Hr.
        rewrite Hturn in Hr. discriminate.
      * rewrite (turn_returns t st _ _ _ _ Hcreate Hcalls), Hsome in Hturn.
        discriminate.
    + intros w' rs Hcalls.
      pose proof (turn_returns t st _ _ _ _ Hcreate Hcalls) as Hturn.
      rewrite Hsome in Hturn.
      eexists. eexists. split; [exact Hturn|].
      intros fuel. now rewrite tool_use_loop_step, Hturn.
  - intros fuel t' st' Hloop.
    destruct (loop_return_inv fuel _ _ _ _ Hloop) as (n & tn & stn & Hn & Hre & Hlast).
    destruct (messages_create (world stn) (available_tools (self stn)) (view tn))
      as [w1 [e|response]] eqn:Hcreate.
    + exfalso. revert Hlast. destruct stn as [w b tr]. cbn [world self] in Hcreate.
      unfold turn. unfold bind at 1, get_self. unfold bind at 1, emit.
      unfold bind at 1, call. cbn [world self trace]. rewrite Hcreate.
      discriminate.
    + exists n, tn, stn, w1, response. repeat split; try assumption.
      destruct (existsb is_tool_use response) eqn:Hsome; [|reflexivity].
      exfalso.
      destruct (call_in_order w1 (dispatched (sessions (self stn)) response))
        as [w' [e|rs]] eqn:Hcalls.
      * pose proof (turn_raises tn stn _ _ _ _ Hcreate Hcalls) as Hr.
        rewrite Hlast in Hr. discriminate.
      * rewrite (turn_returns tn stn _ _ _ _ Hcreate Hcalls), Hsome in Hlast.
        discriminate.
Qed.

(** ** Requests, calls and results *)

Section DispatchFacts.
Context {W : Type} {X : Externals W}.

Lemma dispatched_routed (d : PyDict.t session) (contents : list segment) :
  dispatched d contents = routed d (requests contents).
Proof.
  induction contents as [|[text|id name input|ty] rest IH]; simpl; auto.
  destruct (PyDict.get name d); [now rewrite IH|reflexivity].
Qed.

Lemma calls_of_app (l1 l2 : list event) :
  calls_of (l1 ++ l2) = (calls_of l1 ++ calls_of l2)%list.
Proof.
  induction l1 as [|e l1 IH]; simpl; auto.
  destruct e; simpl; auto. now rewrite IH.
Qed.

Lemma calls_of_reached (d : PyDict.t session) (contents : list segment) :
  calls_of (flat_map (block_events d) (reached d contents))
  = dispatched d contents.
Proof.
  induction contents as [|[text|id name input|ty] rest IH]; simpl; auto.
  destruct (PyDict.get name d) eqn:E; simpl; rewrite E; simpl;
    [now rewrite IH|reflexivity].
Qed.

Lemma results_of_app (l1 l2 : list message) :
  results_of (l1 ++ l2) = (results_of l1 ++ results_of l2)%list.
Proof.
  induction l1 as [|m l1 IH]; simpl; auto.
  destruct m; simpl; auto. now rewrite IH.
Qed.

Lemma results_of_pair_up (a : nat) (ids : list string) :
  forall rs, results_of (pair_up a ids rs) = combine ids rs.
Proof.
  induction ids as [|id ids IH]; intros [|r rs]; simpl; auto.
  now rewrite IH.
Qed.

Lemma assistants_of_pair_up (a : nat) (ids : list string) :
  forall rs, List.length rs <= List.length ids ->
    List.length ids <= S (List.length rs) ->
    filter is_assistant (pair_up a ids rs)
    = repeat (Assistant a) (List.length ids).
Proof.
  induction ids as [|id ids IH]; intros [|r rs] H1 H2; simpl in *; auto.
  - destruct ids; [reflexivity|simpl in H2; lia].
  - rewrite IH; [reflexivity|lia|lia].
Qed.

Lemma call_in_order_length (calls : list (session * string * json)) :
  forall (w w' : W) rs,
    call_in_order w calls = (w', inr rs) -> List.length rs = List.length calls.
Proof.
  induction calls as [|[[s name] input] calls IH]; intros w w' rs H; simpl in H.
  - now injection H as _ <-.
  - destruct (session_call_tool w s name input) as [w1 [e|v]]; [discriminate|].
    destruct (call_in_order w1 calls) as [w2 [e|vs]] eqn:E; [discriminate|].
    injection H as _ <-. simpl. f_equal. exact (IH _ _ _ E).
Qed.

Lemma combine_reached (d : PyDict.t session) (contents : list segment) :
  forall (rs : list json),
    List.length rs = List.length (dispatched d contents) ->
    combine (request_ids (reached d contents)) rs
    = combine (request_ids contents) rs.
Proof.
  induction contents as [|[text|id name input|ty] rest IH]; intros rs H;
    simpl in *; auto.
  destruct (PyDict.get name d); simpl in *.
  - destruct rs as [|r rs]; [discriminate|]. simpl. f_equal. apply IH.
    now injection H.
  - destruct rs; [reflexivity|discriminate].
Qed.

(** Between the requests reached and the calls made there is at most the
    one request that stopped the loop. *)
Lemma reached_ids_length (d : PyDict.t session) (contents : list segment) :
  List.length (dispatched d contents)
    <= List.length (request_ids (reached d contents))
  /\ List.length (request_ids (reached d contents))
    <= S (List.length (dispatched d contents)).
Proof.
  induction contents as [|[text|id name input|ty] rest IH]; simpl; auto.
  destruct (PyDict.get name d); simpl; lia.
Qed.

Lemma reached_ids_positive (d : PyDict.t session) (contents : list segment) :
  existsb is_tool_use contents = true ->
  1 <= List.length (request_ids (reached d contents)).
Proof.
  induction contents as [|[text|id name input|ty] rest IH]; simpl;
    try discriminate; auto.
  intros _. destruct (PyDict.get name d); simpl; lia.
Qed.

Lemma reached_resolved (d : PyDict.t session) (pre rest : list segment) :
  forallb (resolved d) pre = true ->
  reached d (pre ++ rest) = (pre ++ reached d rest)%list
  /\ dispatched d (pre ++ rest) = (dispatched d pre ++ dispatched d rest)%list
  /\ List.length (dispatched d pre) = List.length (request_ids pre).
Proof.
  induction pre as [|[text|id name input|ty] pre IH]; simpl; auto.
  - intros H. destruct (IH H) as (H1 & H2 & H3). now rewrite H1.
  - destruct (PyDict.get name d); simpl; [|discriminate].
    intros H. destruct (IH H) as (H1 & H2 & H3). now rewrite H1, H2, H3.
  - intros H. destruct (IH H) as (H1 & H2 & H3). now rewrite H1.
Qed.

Lemma reached_all (d : PyDict.t session) (contents : list segment) :
  forallb (resolved d) contents = true -> reached d contents = contents.
Proof.
  intros H. destruct (reached_resolved d contents [] H) as (H1 & _).
  now rewrite !app_nil_r in H1.
Qed.

Lemma request_ids_app (l1 l2 : list segment) :
  request_ids (l1 ++ l2) = (request_ids l1 ++ request_ids l2)%list.
Proof.
  induction l1 as [|[text|id name input|ty] l1 IH]; simpl; auto.
  now rewrite IH.
Qed.

Lemma pair_up_last (a : nat) (ids : list string) (id : string) :
  forall rs, List.length rs = List.length ids ->
    pair_up a (ids ++ [id]) rs = (pair_up a ids rs ++ [Assistant a])%list.
Proof.
  induction ids as [|i ids IH]; intros [|r rs] H; simpl in *;
    try discriminate; auto.
  now rewrite IH by lia.
Qed.

End DispatchFacts.

(** C5. The tool requests of a response are sent one after the other in the
    order of the response, each to the session [self.sessions] holds for its
    name and each in the world the call before left; the tool-result
    messages appended are, in that order, the results of those calls, each
    under the id of its request. *)
Theorem C5_requests_dispatched_in_order :
  forall (W : Type) (X : Externals W) (a : nat) (response : list segment)
         (h : bool) (t : transcript) (st : state W) (w' : W) (rs : list json),
    call_in_order (world st) (routed (sessions (self st)) (requests response))
      = (w', inr rs) ->
    exists h' t' evs,
      response_loop a response h t st
        = (Return (h', t'),
           {| world := w'; self := self st; trace := trace st ++ evs |})
      /\ calls_of evs = routed (sessions (self st)) (requests response)
      /\ results_of (messages t')
         = (results_of (messages t) ++ combine (request_ids response) rs)%list
      /\ List.length rs
         = List.length (routed (sessions (self st)) (requests response))
      /\ (forallb (resolved (sessions (self st))) response = true ->
          List.length rs = List.length (requests response)).
Proof.
  intros W X a response h t st w' rs Hcalls.
  rewrite <- dispatched_routed in Hcalls |- *.
  pose proof (call_in_order_length _ _ _ _ Hcalls) as Hlen.
  eexists. eexists. eexists. split.
  - exact (response_loop_returns a response h t st w' rs Hcalls).
  - cbn [messages]. repeat split.
    + apply calls_of_reached.
    + rewrite results_of_app, results_of_pair_up. f_equal.
      now apply combine_reached.
    + exact Hlen.
    + rewrite Hlen.
      clear. induction response as [|[text|id name input|ty] rest IH];
        simpl; auto.
      destruct (PyDict.get name (sessions (self st))); simpl;
        [|intros; discriminate].
      intros. f_equal. auto.
Qed.

(** ** What a turn leaves in the trace *)

Section TraceFacts.
Context {W : Type} {X : Externals W}.

Lemma response_loop_trace (a : nat) (contents : list segment) :
  forall (h : bool) (t : transcript) (st : state W),
    exists evs, trace (snd (response_loop a contents h t st)) = (trace st ++ evs)%list.
Proof.
  induction contents as [|c rest IH]; intros h t [w b tr]; cbn [trace].
  - exists []. simpl. now rewrite app_nil_r.
  - destruct c as [text|id name input|ty]; cbn [response_loop].
    + unfold bind at 1, print, emit. cbn [world self trace].
      destruct (IH h (list_append a (Text text) t)
                  {| world := w; self := b; trace := tr ++ [Print text] |})
        as [evs Hevs].
      exists (Print text :: evs). rewrite Hevs. cbn [trace].
      now rewrite <- app_assoc.
    + unfold bind at 1, get_self. cbn [world self trace].
      destruct (PyDict.get name (sessions b)) as [s|].
      * unfold bind at 1, emit. unfold bind at 1, call. cbn [world self trace].
        destruct (session_call_tool w s name input) as [w1 [e|v]].
        -- exists [CallTool s name input]. reflexivity.
        -- destruct (IH true
                       (messages_append (ToolResult id v)
                          (messages_append (Assistant a)
                             (list_append a (ToolUse id name input) t)))
                       {| world := w1; self := b;
                          trace := tr ++ [CallTool s name input] |})
             as [evs Hevs].
           exists (CallTool s name input :: evs). rewrite Hevs. cbn [trace].
           now rewrite <- app_assoc.
      * eexists. unfold bind, print, emit, ret. cbn [snd trace]. reflexivity.
    + apply (IH h t {| world := w; self := b; trace := tr |}).
Qed.

(** A turn starts with the request to the model, on the lists as they are. *)
Lemma turn_trace (t : transcript) (st : state W) :
  exists evs,
    trace (snd (turn t st))
    = (trace st ++ CreateMessage (available_tools (self st)) (view t) :: evs)%list.
Proof.
  destruct st as [w b tr]. unfold turn. unfold bind at 1, get_self.
  unfold bind at 1, emit. unfold bind at 1, call. cbn [world self trace].
  destruct (messages_create w (available_tools b) (view t)) as [w1 [e|response]].
  - exists []. reflexivity.
  - unfold new_list. unfold bind at 1.
    destruct (response_loop_trace (List.length (heap t)) response false
                {| heap := heap t ++ [[]]; messages := messages t |}
                {| world := w1; self := b;
                   trace := tr ++ [CreateMessage (available_tools b) (view t)] |})
      as [evs Hevs].
    exists evs.
    destruct (response_loop _ _ _ _ _) as [[[hu t1]|e|] st1];
      cbn [snd trace] in Hevs |- *.
    + destruct hu; unfold ret; cbn [snd]; rewrite Hevs; now rewrite <- app_assoc.
    + rewrite Hevs. now rewrite <- app_assoc.
    + rewrite Hevs. now rewrite <- app_assoc.
Qed.

Lemma turn_self (t : transcript) (st : state W) (t' : transcript + transcript)
    (st' : state W) :
  turn t st = (Return t', st') -> self st' = self st.
Proof.
  intros H.
  destruct (messages_create (world st) (available_tools (self st)) (view t))
    as [w1 [e|response]] eqn:Hcreate.
  - exfalso. revert H. destruct st as [w b tr]. cbn [world self] in Hcreate.
    unfold turn. unfold bind at 1, get_self. unfold bind at 1, emit.
    unfold bind at 1, call. cbn [world self trace]. rewrite Hcreate.
    discriminate.
  - destruct (call_in_order w1 (dispatched (sessions (self st)) response))
      as [w' [e|rs]] eqn:Hcalls.
    + pose proof (turn_raises t st _ _ _ _ Hcreate Hcalls) as Hr.
      rewrite H in Hr. discriminate.
    + rewrite (turn_returns t st _ _ _ _ Hcreate Hcalls) in H.
      injection H as _ <-. reflexivity.
Qed.

Lemma loop_trace (fuel : nat) :
  forall (t : transcript) (st : state W),
    exists evs, trace (snd (tool_use_loop fuel t st)) = (trace st ++ evs)%list.
Proof.
  induction fuel as [|fuel IH]; intros t st.
  - exists []. simpl. now rewrite app_nil_r.
  - rewrite tool_use_loop_step. destruct (turn_trace t st) as [evs Hevs].
    destruct (turn t st) as [[[t1|t1]|e|] st1]; cbn [snd] in Hevs |- *;
      try (eexists; exact Hevs).
    destruct (IH t1 st1) as [evs' Hevs']. rewrite Hevs', Hevs.
    eexists. rewrite <- app_assoc. reflexivity.
Qed.

(** The loop, with fuel for a turn, starts with the request to the model. *)
Lemma loop_first_request (fuel : nat) (t : transcript) (st : state W) :
  exists evs,
    trace (snd (tool_use_loop (S fuel) t st))
    = (trace st ++ CreateMessage (available_tools (self st)) (view t) :: evs)%list.
Proof.
  rewrite tool_use_loop_step. destruct (turn_trace t st) as [evs Hevs].
  destruct (turn t st) as [[[t1|t1]|e|] st1]; cbn [snd] in Hevs |- *;
    try (eexists; exact Hevs).
  destruct (loop_trace fuel t1 st1) as [evs' Hevs']. rewrite Hevs', Hevs.
  eexists. rewrite <- app_assoc. cbn [app]. reflexivity.
Qed.

End TraceFacts.

(** Line 150 stands inside the branch of a tool request, so it runs once for
    every request the loop reaches: a turn on an answer with a tool request
    appends that many assistant messages, each before the result of its
    request; all of them hold the one list [assistant_content], which after
    the turn, and so in the next request to the model, is the text and
    tool-use blocks the loop went through. The message is appended once, as
    one bundle, only when a single request is reached. *)
Lemma assistant_message_per_request :
  forall (W : Type) (X : Externals W) (t : transcript) (st : state W)
         (w1 w' : W) (response : list segment) (rs : list json),
    messages_create (world st) (available_tools (self st)) (view t)
      = (w1, inr response) ->
    existsb is_tool_use response = true ->
    call_in_order w1 (routed (sessions (self st)) (requests response))
      = (w', inr rs) ->
    let d := sessions (self st) in
    let a := List.length (heap t) in
    exists t' st' new,
      turn t st = (Return (inr t'), st')
      /\ messages t' = (messages t ++ new)%list
      /\ new = pair_up a (request_ids (reached d response)) rs
      /\ filter is_assistant new
         = repeat (Assistant a) (List.length (request_ids (reached d response)))
      /\ 1 <= List.length (request_ids (reached d response))
      /\ (forall m, In m new -> is_assistant m = true ->
                    deref (heap t') m = ApiAssistant (filter kept (reached d response)))
      /\ (forallb (resolved d) response = true -> reached d response = response).
Proof.
  intros W X t st w1 w' response rs Hcreate Hsome Hcalls d a. subst d a.
  rewrite <- dispatched_routed in Hcalls.
  pose proof (turn_returns t st _ _ _ _ Hcreate Hcalls) as Hturn.
  rewrite Hsome in Hturn.
  pose proof (call_in_order_length _ _ _ _ Hcalls) as Hlen.
  destruct (reached_ids_length (sessions (self st)) response) as [Hlo Hhi].
  eexists. eexists. eexists. split; [exact Hturn|].
  cbn [after_response messages heap]. repeat split.
  - apply assistants_of_pair_up; lia.
  - now apply reached_ids_positive.
  - intros m Hin Hm. destruct m as [q|a'|i c]; try discriminate.
    assert (Ha : a' = List.length (heap t)).
    { assert (Hf : In (Assistant a') (filter is_assistant
                (pair_up (List.length (heap t))
                   (request_ids (reached (sessions (self st)) response)) rs)))
        by (apply filter_In; split; [exact Hin|reflexivity]).
      rewrite assistants_of_pair_up in Hf by lia.
      apply repeat_spec in Hf. now injection Hf. }
    subst a'. cbn [deref].
    rewrite app_nth2 by lia. now rewrite Nat.sub_diag.
  - apply reached_all.
Qed.

(** ** The input loop goes on *)

Section SessionFacts.
Context {W : Type} {X : Externals W}.

Lemma then_continue {A : Type} (m : M W A) (st : state W) :
  fst ((m ;; ret Continue) st) <> Return Break.
Proof.
  unfold bind, ret. destruct (m st) as [[a|e|] st']; simpl; discriminate.
Qed.

Lemma slash_command_goes_on (fuel : nat) (query : string) (st : state W) :
  fst (slash_command fuel query st) <> Return Break.
Proof.
  unfold slash_command. destruct (PyStr.split query) as [|part0 others].
  - discriminate.
  - destruct (String.eqb (PyStr.lower part0) "/prompts");
      [apply then_continue|].
    destruct (String.eqb (PyStr.lower part0) "/prompt");
      [|apply then_continue].
    destruct others; apply then_continue.
Qed.

(** A turn of the input loop never raises, and ends the loop only on a line
    that reads [quit]. *)
Lemma chat_turn_goes_on (fuel : nat) (inp : user_input) (st : state W) :
  (forall e, fst (chat_turn fuel inp st) <> Raise e)
  /\ (fst (chat_turn fuel inp st) = Return Break ->
      exists s, inp = Line s /\ PyStr.lower (PyStr.strip s) = "quit").
Proof.
  unfold chat_turn, try_except.
  match goal with
  | |- context [match ?body st with _ => _ end] =>
      destruct (body st) as [[c|e|] st'] eqn:E
  end; cbn [fst].
  - split; [discriminate|]. intros Hc. injection Hc as ->.
    revert E. unfold bind at 1, emit. cbn [world self trace].
    destruct inp as [s| |].
    + destruct (String.eqb (PyStr.strip s) ""); [discriminate|].
      destruct (String.eqb (PyStr.lower (PyStr.strip s)) "quit") eqn:Q.
      * intros _. exists s. split; [reflexivity|]. now apply String.eqb_eq.
      * intros E. exfalso.
        destruct (PyStr.startswith (PyStr.strip s) "@").
        -- apply (f_equal fst) in E. revert E. unfold at_resource.
           apply then_continue.
        -- destruct (PyStr.startswith (PyStr.strip s) "/").
           ++ apply (f_equal fst) in E. revert E. apply slash_command_goes_on.
           ++ apply (f_equal fst) in E. revert E. apply then_continue.
    + intros E. apply (f_equal fst) in E. exfalso. revert E.
      apply then_continue.
    + intros E. apply (f_equal fst) in E. exfalso. revert E.
      apply then_continue.
  - split; [|discriminate]. intros e'. unfold bind, print, emit, ret.
    discriminate.
  - split; [discriminate|discriminate].
Qed.

End SessionFacts.

(** C3. A tool request whose name [self.sessions] lacks, after blocks whose
    requests all resolved and returned: the turn prints the "not found"
    line, makes no call for the blocks after it, and goes on; the lists hold
    the results of the calls made before it, and the next request to the
    model carries them. No turn of the input loop raises or ends the loop,
    but for a line that reads [quit]. *)
Theorem C3_unresolved_tool_skips_the_rest :
  forall (W : Type) (X : Externals W) (t : transcript) (st : state W)
         (w1 w' : W) (pre post : list segment) (id name : string)
         (input : json) (rs : list json),
    messages_create (world st) (available_tools (self st)) (view t)
      = (w1, inr (pre ++ ToolUse id name input :: post)%list) ->
    forallb (resolved (sessions (self st))) pre = true ->
    PyDict.get name (sessions (self st)) = None ->
    call_in_order w1 (routed (sessions (self st)) (requests pre)) = (w', inr rs) ->
    let d := sessions (self st) in
    let a := List.length (heap t) in
    let t' :=
      {| heap := heap t ++ [(filter kept pre ++ [ToolUse id name input])%list];
         messages :=
           (messages t ++ pair_up a (request_ids pre) rs ++ [Assistant a])%list |} in
    let st' :=
      {| world := w'; self := self st;
         trace :=
           (trace st ++
            CreateMessage (available_tools (self st)) (view t) ::
            flat_map (block_events d) pre ++
            [Print ("Tool '" ++ name ++ "' not found.")%string])%list |} in
    turn t st = (Return (inr t'), st')
    /\ calls_of (trace st') = (calls_of (trace st) ++ routed d (requests pre))%list
    /\ results_of (messages t')
       = (results_of (messages t) ++ combine (request_ids pre) rs)%list
    /\ List.length rs = List.length (request_ids pre)
    /\ (forall fuel, tool_use_loop (S fuel) t st = tool_use_loop fuel t' st')
    /\ (forall fuel, exists evs,
           trace (snd (tool_use_loop (S (S fuel)) t st))
           = (trace st' ++ CreateMessage (available_tools (self st)) (view t') :: evs)%list)
    /\ (forall i r, In (i, r) (combine (request_ids pre) rs) ->
                    In (ApiToolResult i r) (view t'))
    /\ (forall fuel inp (st0 : state W),
           (forall e, fst (chat_turn fuel inp st0) <> Raise e)
           /\ (fst (chat_turn fuel inp st0) = Return Break ->
               exists s, inp = Line s /\ PyStr.lower (PyStr.strip s) = "quit")).
Proof.
  intros W X t st w1 w' pre post id name input rs Hcreate Hpre Hget Hcalls
         d a t' st'. subst d a.
  rewrite <- dispatched_routed in Hcalls |- *.
  destruct (reached_resolved (sessions (self st)) pre (ToolUse id name input :: post) Hpre)
    as (Hreached & Hdisp & Hlen).
  cbn [reached dispatched] in Hreached, Hdisp.
  rewrite Hget in Hreached, Hdisp. rewrite app_nil_r in Hdisp.
  pose proof (call_in_order_length _ _ _ _ Hcalls) as Hrs.
  rewrite Hlen in Hrs.
  assert (Hturn : turn t st = (Return (inr t'), st')).
  { assert (Hcalls' : call_in_order w1
              (dispatched (sessions (self st)) (pre ++ ToolUse id name input :: post)) = (w', inr rs))
      by now rewrite Hdisp.
    rewrite (turn_returns t st _ _ _ _ Hcreate Hcalls').
    assert (Hsome : existsb is_tool_use (pre ++ ToolUse id name input :: post)
                    = true).
    { rewrite existsb_app. simpl. apply orb_true_r. }
    rewrite Hsome. unfold after_response. rewrite Hreached.
    rewrite filter_app, request_ids_app, flat_map_app.
    cbn [filter kept request_ids flat_map block_events app].
    rewrite Hget. rewrite pair_up_last by exact Hrs. reflexivity. }
  split; [exact Hturn|]. split; [|split; [|split; [|split; [|split; [|split]]]]].
  - subst st'. cbn [trace]. rewrite calls_of_app. f_equal.
    cbn [calls_of]. rewrite calls_of_app. cbn [calls_of].
    rewrite app_nil_r. rewrite <- (calls_of_reached (sessions (self st)) pre).
    now rewrite (reached_all (sessions (self st)) pre Hpre).
  - subst t'. cbn [messages]. rewrite !results_of_app, results_of_pair_up.
    cbn [results_of]. now rewrite app_nil_r.
  - exact Hrs.
  - intros fuel. now rewrite tool_use_loop_step, Hturn.
  - intros fuel. rewrite tool_use_loop_step, Hturn.
    destruct (loop_first_request fuel t' st') as [evs Hevs].
    exists evs. exact Hevs.
  - intros i r Hin. unfold view. apply in_map_iff.
    exists (ToolResult i r). split; [reflexivity|].
    subst t'. cbn [messages]. apply in_or_app. right. apply in_or_app. left.
    clear - Hin. revert rs Hin.
    induction (request_ids pre) as [|i0 ids IH]; intros [|r0 rs] Hin;
      simpl in *; try contradiction.
    right. destruct Hin as [Hin|Hin].
    + injection Hin as -> ->. now left.
    + right. now apply IH.
  - intros fuel inp st0. apply chat_turn_goes_on.
Qed.

(** ** Resolution *)

Lemma first_papers_spec (d : PyDict.t session) (s : session) :
  first_papers d = Some s <->
  exists before k rest,
    d = (before ++ (k, s) :: rest)%list
    /\ PyStr.startswith k "papers://" = true
    /\ Forall (fun kv => PyStr.startswith (fst kv) "papers://" = false) before.
Proof.
  induction d as [|[k0 s0] d IH]; cbn [first_papers].
  - split; [discriminate|]. intros (before & k & rest & H & _).
    destruct before; discriminate.
  - destruct (PyStr.startswith k0 "papers://") eqn:E.
    + split.
      * intros H. injection H as ->. exists [], k0, d. repeat split; auto.
      * intros (before & k & rest & H & Hk & Hb).
        destruct before as [|[k1 s1] before]; cbn [app] in H.
        -- now injection H as _ ->.
        -- injection H as -> -> _. inversion Hb as [|? ? Hk1 _]; subst.
           cbn [fst] in Hk1. congruence.
    + rewrite IH. split.
      * intros (before & k & rest & -> & Hk & Hb).
        exists ((k0, s0) :: before), k, rest. repeat split; auto.
      * intros (before & k & rest & H & Hk & Hb).
        destruct before as [|[k1 s1] before]; cbn [app] in H.
        -- injection H as -> _ _. congruence.
        -- injection H as -> -> ->. inversion Hb; subst.
           exists before, k, rest. repeat split; auto.
Qed.

(** C6. A tool name and a prompt name are looked up as they are: a name
    [self.sessions] holds goes to the session it holds, a name it lacks is
    reported "not found" and nothing is called, whatever the name and the
    other keys. A resource URI that is a key goes to its session; one that
    is no key goes, when it starts with [papers://], to the session of the
    first key in the order of the dictionary that starts with [papers://]
    (not found if there is none), and is not found otherwise. *)
Theorem C6_exact_names_and_papers_fallback :
  forall (W : Type) (X : Externals W),
    (forall a id name input rest h t (st : state W),
        (PyDict.get name (sessions (self st)) = None ->
         response_loop a (ToolUse id name input :: rest) h t st
         = (Return (true, messages_append (Assistant a)
                            (list_append a (ToolUse id name input) t)),
            after st [Print ("Tool '" ++ name ++ "' not found.")]))
        /\ (forall s, PyDict.get name (sessions (self st)) = Some s ->
            response_loop a (ToolUse id name input :: rest) h t st
            = (emit (CallTool s name input) ;;
               result <- call (fun w => session_call_tool w s name input) ;;
               response_loop a rest true
                 (messages_append (ToolResult id result)
                    (messages_append (Assistant a)
                       (list_append a (ToolUse id name input) t)))) st))
    /\ (forall fuel name args (st : state W),
           (PyDict.get name (sessions (self st)) = None ->
            execute_prompt fuel name args st
            = (Return tt, after st [Print ("Prompt '" ++ name ++ "' not found.")]))
           /\ (forall s, PyDict.get name (sessions (self st)) = Some s ->
               exists evs,
                 trace (snd (execute_prompt fuel name args st))
                 = (trace st ++ GetPrompt s name args :: evs)%list))
    /\ (forall (d : PyDict.t session) uri,
           (forall s, PyDict.get uri d = Some s -> resource_session d uri = Some s)
           /\ (PyDict.get uri d = None ->
               PyStr.startswith uri "papers://" = false ->
               resource_session d uri = None)
           /\ (PyDict.get uri d = None ->
               PyStr.startswith uri "papers://" = true ->
               resource_session d uri = first_papers d)
           /\ (forall s, PyDict.get uri d = None ->
               (resource_session d uri = Some s <->
                PyStr.startswith uri "papers://" = true
                /\ exists before k rest,
                     d = (before ++ (k, s) :: rest)%list
                     /\ PyStr.startswith k "papers://" = true
                     /\ Forall (fun kv => PyStr.startswith (fst kv) "papers://" = false)
                               before)))
    /\ (forall uri (st : state W),
           resource_session (sessions (self st)) uri = None ->
           get_resource uri st
           = (Return tt, after st [Print ("Resource '" ++ uri ++ "' not found.")])).
Proof.
  intros W X. split; [|split; [|split]].
  - intros a id name input rest h t [w b tr]. cbn [world self trace]. split.
    + intros Hget. cbn [response_loop]. unfold bind at 1, get_self.
      cbn [self]. rewrite Hget. reflexivity.
    + intros s Hget. cbn [response_loop]. unfold bind at 1, get_self.
      cbn [self]. rewrite Hget. reflexivity.
  - intros fuel name args [w b tr]. cbn [world self trace]. split.
    + intros Hget. unfold execute_prompt. unfold bind at 1, get_self.
      cbn [self]. rewrite Hget. reflexivity.
    + intros s Hget. unfold execute_prompt. unfold bind at 1, get_self.
      cbn [self]. rewrite Hget. unfold try_except.
      unfold bind at 1, emit. unfold bind at 1, call. cbn [world self trace].
      destruct (session_get_prompt w s name args) as [w1 [e|result]].
      * eexists. unfold print, emit. cbn [snd trace].
        rewrite <- app_assoc. reflexivity.
      * destruct result as [[|first others]|].
        -- eexists. unfold ret. cbn [snd trace]. reflexivity.
        -- unfold bind at 1, print, emit. cbn [world self trace].
           unfold process_query. unfold bind at 1.
           destruct (loop_trace fuel (initial_transcript (content_text first))
                       {| world := w1; self := b;
                          trace := (tr ++ [GetPrompt s name args]) ++
                                   [Print (PyStr.nl ++ "Executing prompt '" ++ name ++ "'...")] |})
             as [evs Hevs].
           destruct (tool_use_loop _ _ _) as [[r|e|] st1];
             cbn [snd trace] in Hevs |- *; unfold ret; cbn [snd trace];
             rewrite Hevs, <- !app_assoc; eexists; reflexivity.
        -- eexists. unfold ret. cbn [snd trace]. reflexivity.
  - intros d uri. unfold resource_session. split; [|split; [|split]].
    + intros s ->. reflexivity.
    + intros -> ->. reflexivity.
    + intros -> ->. reflexivity.
    + intros s ->. split.
      * destruct (PyStr.startswith uri "papers://"); [|discriminate].
        intros Hs. split; [reflexivity|]. now apply first_papers_spec.
      * intros [-> Hd]. now apply first_papers_spec.
  - intros uri [w b tr]. cbn [world self trace]. intros Hnone.
    unfold get_resource. unfold bind at 1, get_self. cbn [self].
    rewrite Hnone. reflexivity.
Qed.

(** ** Registration *)

Lemma get_register (s : session) (keys : list string) :
  forall (d : PyDict.t session) (k : string),
    PyDict.get k (register s keys d) =
    if existsb (String.eqb k) keys then Some s else PyDict.get k d.
Proof.
  induction keys as [|k0 keys IH]; intros d k; cbn [register existsb].
  - reflexivity.
  - rewrite IH, get_set.
    destruct (String.eqb k k0); cbn [orb];
      destruct (existsb (String.eqb k) keys); reflexivity.
Qed.

Lemma register_app (s : session) (ks1 ks2 : list string) :
  forall d, register s (ks1 ++ ks2) d = register s ks2 (register s ks1 d).
Proof.
  induction ks1 as [|k ks1 IH]; intros d; cbn [register app]; auto.
Qed.

Lemma existsb_eqb_In (k : string) (keys : list string) :
  existsb (String.eqb k) keys = true <-> In k keys.
Proof.
  rewrite existsb_exists. split.
  - intros (x & Hin & Heq). apply String.eqb_eq in Heq. now subst.
  - intros Hin. exists k. split; [exact Hin|apply String.eqb_refl].
Qed.

(** The registry after some backends, one after the other. *)
Lemma get_registered (regs : list capabilities) :
  forall (b : chatbot) (k : string),
    PyDict.get k (sessions (fold_left (fun b c => registered c b) regs b)) =
    match last_registrant k regs with
    | Some s => Some s
    | None => PyDict.get k (sessions b)
    end.
Proof.
  induction regs as [|c regs IH]; intros b k; cbn [fold_left last_registrant].
  - reflexivity.
  - rewrite IH. destruct (last_registrant k regs); [reflexivity|].
    cbn [registered sessions]. rewrite get_register.
    now destruct (existsb (String.eqb k) (cap_keys c)).
Qed.

Lemma last_registrant_app (k : string) (before rest : list capabilities) :
  last_registrant k (before ++ rest) =
  match last_registrant k rest with
  | Some s => Some s
  | None => last_registrant k before
  end.
Proof.
  induction before as [|c before IH]; cbn [app last_registrant].
  - now destruct (last_registrant k rest).
  - rewrite IH. now destruct (last_registrant k rest).
Qed.

Lemma last_registrant_none (k : string) (regs : list capabilities) :
  (forall c, In c regs -> ~ In k (cap_keys c)) -> last_registrant k regs = None.
Proof.
  induction regs as [|c regs IH]; intros H; cbn [last_registrant]; auto.
  rewrite IH by (intros c' Hc'; apply H; now right).
  destruct (existsb (String.eqb k) (cap_keys c)) eqn:E; [|reflexivity].
  apply existsb_eqb_In in E. exfalso. apply (H c); [now left|exact E].
Qed.

Section BootstrapFacts.
Context {W : Type} {X : Externals W}.

Lemma for_each_register_tool (s : session) (tools : list tool_info) :
  forall st : state W,
    for_each tools (register_tool s) st =
    (Return tt,
     {| world := world st;
        self := {| available_tools := available_tools (self st) ++ map tool_entry tools;
                   available_prompts := available_prompts (self st);
                   sessions := register s (map tool_name tools) (sessions (self st)) |};
        trace := trace st |}).
Proof.
  induction tools as [|tool tools IH]; intros [w [ts ps d] tr];
    cbn [world self trace available_tools available_prompts sessions].
  - cbn [for_each map register]. unfold ret. now rewrite app_nil_r.
  - cbn [for_each]. unfold bind at 1. unfold register_tool at 1.
    unfold bind at 1, get_self, set_self. cbn [world self trace].
    rewrite IH.
    cbn [world self trace available_tools available_prompts sessions map register].
    unfold tool_entry at 2. now rewrite <- app_assoc.
Qed.

Lemma for_each_register_prompt (s : session) (prompts : list prompt_info) :
  forall st : state W,
    for_each prompts (register_prompt s) st =
    (Return tt,
     {| world := world st;
        self := {| available_tools := available_tools (self st);
                   available_prompts :=
                     available_prompts (self st) ++ map prompt_entry prompts;
                   sessions := register s (map prompt_name prompts) (sessions (self st)) |};
        trace := trace st |}).
Proof.
  induction prompts as [|prompt prompts IH]; intros [w [ts ps d] tr];
    cbn [world self trace available_tools available_prompts sessions].
  - cbn [for_each map register]. unfold ret. now rewrite app_nil_r.
  - cbn [for_each]. unfold bind at 1. unfold register_prompt at 1.
    unfold bind at 1, get_self, set_self. cbn [world self trace].
    rewrite IH.
    cbn [world self trace available_tools available_prompts sessions map register].
    unfold prompt_entry at 2. now rewrite <- app_assoc.
Qed.

Lemma for_each_register_resource (s : session) (resources : list resource_info) :
  forall st : state W,
    for_each resources (register_resource s) st =
    (Return tt,
     {| world := world st;
        self := {| available_tools := available_tools (self st);
                   available_prompts := available_prompts (self st);
                   sessions := register s (map resource_uri resources)
                                 (sessions (self st)) |};
        trace := trace st |}).
Proof.
  induction resources as [|resource resources IH]; intros [w [ts ps d] tr];
    cbn [world self trace available_tools available_prompts sessions].
  - cbn [for_each map register]. reflexivity.
  - cbn [for_each]. unfold bind at 1. unfold register_resource at 1.
    unfold bind at 1, get_self, set_self. cbn [world self trace].
    rewrite IH. reflexivity.
Qed.

Lemma connect_tools_spec (s : session) (st : state W) (w' : W)
    (lt : listing tool_info) :
  session_list_tools (world st) s = (w', lt) ->
  exists evs,
    connect_tools s st =
    (Return tt,
     {| world := w';
        self := {| available_tools :=
                     available_tools (self st) ++ map tool_entry (items lt);
                   available_prompts := available_prompts (self st);
                   sessions := register s (map tool_name (items lt))
                                 (sessions (self st)) |};
        trace := trace st ++ evs |}).
Proof.
  destruct st as [w [ts ps d] tr].
  cbn [world self trace available_tools available_prompts sessions].
  intros H. unfold connect_tools, try_except, enumerate.
  unfold bind at 1. unfold bind at 1, ask. cbn [world self trace]. rewrite H.
  destruct lt as [|e| |tools]; cbn [items map register].
  - exists []. unfold ret. now rewrite !app_nil_r.
  - eexists. unfold bind, emit, raise, print, emit. cbn [world self trace].
    rewrite <- app_assoc, app_nil_r. reflexivity.
  - eexists. unfold bind, emit, ret. cbn [world self trace].
    rewrite app_nil_r. reflexivity.
  - eexists. unfold bind at 1, emit. unfold ret at 1. cbn [world self trace].
    unfold bind at 1. rewrite for_each_register_tool.
    cbn [world self trace available_tools available_prompts sessions].
    unfold print, emit. cbn [world self trace]. rewrite <- app_assoc.
    reflexivity.
Qed.

Lemma connect_prompts_spec (s : session) (st : state W) (w' : W)
    (lp : listing prompt_info) :
  session_list_prompts (world st) s = (w', lp) ->
  exists evs,
    connect_prompts s st =
    (Return tt,
     {| world := w';
        self := {| available_tools := available_tools (self st);
                   available_prompts :=
                     available_prompts (self st) ++ map prompt_entry (items lp);
                   sessions := register s (map prompt_name (items lp))
                                 (sessions (self st)) |};
        trace := trace st ++ evs |}).
Proof.
  destruct st as [w [ts ps d] tr].
  cbn [world self trace available_tools available_prompts sessions].
  intros H. unfold connect_prompts, try_except, enumerate.
  unfold bind at 1. unfold bind at 1, ask. cbn [world self trace]. rewrite H.
  destruct lp as [|e| |[|p prompts]]; cbn [items map register].
  - exists []. unfold ret. now rewrite !app_nil_r.
  - eexists. unfold bind, emit, raise, print, emit. cbn [world self trace].
    rewrite <- app_assoc, app_nil_r. reflexivity.
  - eexists. unfold bind, emit, ret. cbn [world self trace].
    rewrite app_nil_r. reflexivity.
  - eexists. unfold bind, emit, ret. cbn [world self trace].
    rewrite app_nil_r. reflexivity.
  - eexists. unfold bind at 1, emit. unfold ret at 1. cbn [world self trace].
    unfold bind at 1. rewrite for_each_register_prompt.
    cbn [world self trace available_tools available_prompts sessions].
    unfold print, emit. cbn [world self trace map register].
    rewrite <- app_assoc. reflexivity.
Qed.

Lemma connect_resources_spec (s : session) (st : state W) (w' : W)
    (lr : listing resource_info) :
  session_list_resources (world st) s = (w', lr) ->
  exists evs,
    connect_resources s st =
    (Return tt,
     {| world := w';
        self := {| available_tools := available_tools (self st);
                   available_prompts := available_prompts (self st);
                   sessions := register s (map resource_uri (items lr))
                                 (sessions (self st)) |};
        trace := trace st ++ evs |}).
Proof.
  destruct st as [w [ts ps d] tr].
  cbn [world self trace available_tools available_prompts sessions].
  intros H. unfold connect_resources, try_except, enumerate.
  unfold bind at 1. unfold bind at 1, ask. cbn [world self trace]. rewrite H.
  destruct lr as [|e| |[|u resources]]; cbn [items map register].
  - exists []. unfold ret. now rewrite !app_nil_r.
  - eexists. unfold bind, emit, raise, print, emit. cbn [world self trace].
    rewrite <- app_assoc. reflexivity.
  - eexists. unfold bind, emit, ret. cbn [world self trace]. reflexivity.
  - eexists. unfold bind, emit, ret. cbn [world self trace]. reflexivity.
  - eexists. unfold bind at 1, emit. unfold ret at 1. cbn [world self trace].
    unfold bind at 1. rewrite for_each_register_resource.
    cbn [world self trace available_tools available_prompts sessions].
    unfold print, emit. cbn [world self trace map register].
    rewrite <- app_assoc. reflexivity.
Qed.

(** [connect_to_server], from what the backend does. *)
Lemma connect_to_server_spec (server_name : string) (server_config : json)
    (st : state W) (w' : W) (r : option capabilities) :
  probe (world st) server_name server_config = (w', r) ->
  exists evs,
    connect_to_server server_name server_config st =
    match r with
    | Some c =>
        (Return true,
         {| world := w'; self := registered c (self st); trace := trace st ++ evs |})
    | None =>
        (Return false,
         {| world := w'; self := self st; trace := trace st ++ evs |})
    end.
Proof.
  destruct st as [w b tr]. cbn [world self trace]. unfold probe. intros H.
  unfold connect_to_server, try_except.
  unfold bind at 1, print, emit. unfold bind at 1, emit.
  unfold bind at 1, call. cbn [world self trace].
  destruct (launch w server_name server_config) as [w1 [e|s]].
  - injection H as <- <-. eexists. unfold bind, print, emit, ret.
    cbn [world self trace]. rewrite <- !app_assoc. reflexivity.
  - destruct (session_list_tools w1 s) as [w2 lt] eqn:Ht.
    destruct (session_list_prompts w2 s) as [w3 lp] eqn:Hp.
    destruct (session_list_resources w3 s) as [w4 lr] eqn:Hr.
    injection H as <- <-.
    destruct (connect_tools_spec s
                {| world := w1; self := b;
                   trace := (tr ++ [Print ("Connecting to " ++ server_name ++ " server...")])
                            ++ [Launch server_name server_config] |}
                w2 lt Ht) as [evs1 H1].
    cbn [world self trace] in H1.
    unfold bind at 1. rewrite H1. unfold bind at 1.
    match goal with
    | |- context [connect_prompts s ?st1] =>
        destruct (connect_prompts_spec s st1 w3 lp Hp) as [evs2 H2]
    end.
    cbn [world self trace available_tools available_prompts sessions] in H2.
    rewrite H2. unfold bind at 1.
    match goal with
    | |- context [connect_resources s ?st2] =>
        destruct (connect_resources_spec s st2 w4 lr Hr) as [evs3 H3]
    end.
    cbn [world self trace available_tools available_prompts sessions] in H3.
    rewrite H3.
    cbn [world self trace available_tools available_prompts sessions].
    eexists. unfold bind, print, emit, ret. cbn [world self trace].
    unfold registered, cap_keys.
    cbn [cap_session cap_tools cap_prompts cap_resources].
    rewrite !register_app, <- !app_assoc. reflexivity.
Qed.

(** Lines 104-109 for an entry whose command line can be printed. *)
Lemma connect_entry_spec (entry : string * json) (line : string)
    (st : state W) (w' : W) (r : option capabilities) :
  command_line (snd entry) = inr line ->
  probe (world st) (fst entry) (snd entry) = (w', r) ->
  exists evs,
    connect_entry entry st =
    (Return tt,
     {| world := w';
        self := match r with Some c => registered c (self st) | None => self st end;
        trace := trace st ++ evs |}).
Proof.
  destruct entry as [server_name server_config]. cbn [fst snd].
  destruct st as [w b tr]. cbn [world self trace]. intros Hline Hprobe.
  unfold connect_entry. unfold bind at 1, print, emit. cbn [world self trace].
  rewrite Hline. unfold bind at 1, emit. cbn [world self trace].
  unfold bind at 1.
  match goal with
  | |- context [connect_to_server _ _ ?st1] =>
      destruct (connect_to_server_spec server_name server_config st1 w' r Hprobe)
        as [evs H]
  end.
  cbn [world self trace] in H. rewrite H.
  destruct r as [c|]; cbn [world self trace]; eexists;
    unfold emit; cbn [world self trace]; rewrite <- !app_assoc; reflexivity.
Qed.

(** The loop of lines 103-109 over entries whose command lines can all be
    printed. *)
Lemma connect_entries_spec (entries : list (string * json)) :
  forall st : state W,
    Forall (fun entry => exists line, command_line (snd entry) = inr line) entries ->
    exists w' evs,
      for_each entries connect_entry st =
      (Return tt,
       {| world := w';
          self := fold_left (fun b c => registered c b)
                    (registrations (world st) entries) (self st);
          trace := trace st ++ evs |}).
Proof.
  induction entries as [|entry entries IH]; intros [w b tr] Hall;
    cbn [world self trace].
  - exists w, []. cbn [for_each registrations fold_left]. unfold ret.
    now rewrite app_nil_r.
  - inversion Hall as [|? ? [line Hline] Hrest]; subst.
    destruct (probe w (fst entry) (snd entry)) as [w1 r] eqn:Hprobe.
    destruct (connect_entry_spec entry line
                {| world := w; self := b; trace := tr |} w1 r Hline Hprobe)
      as [evs1 H1].
    cbn [world self trace] in H1.
    cbn [for_each]. unfold bind at 1. rewrite H1.
    match goal with
    | |- context [for_each entries connect_entry ?st1] =>
        destruct (IH st1 Hrest) as (w2 & evs2 & H2)
    end.
    cbn [world self trace] in H2.
    rewrite H2. exists w2. eexists.
    destruct entry as [server_name server_config]. cbn [fst snd] in Hprobe.
    cbn [registrations]. rewrite Hprobe.
    destruct r as [c|]; cbn [fold_left]; rewrite <- app_assoc; reflexivity.
Qed.

End BootstrapFacts.

Section ServersFacts.
Context {W : Type} {X : Externals W}.

(** [connect_to_servers] on a configuration whose [mcpServers] is a mapping
    with entries, all with a command line that can be printed. *)
Lemma connect_to_servers_spec (entries : list (string * json))
    (st : state W) (w1 : W) (o : list (string * json)) :
  load_config (world st) = (w1, inr (JObj o)) ->
  PyDict.get "mcpServers" o = Some (JObj entries) ->
  entries <> [] ->
  Forall (fun entry => exists line, command_line (snd entry) = inr line) entries ->
  exists w' evs,
    connect_to_servers st =
    (Return true,
     {| world := w';
        self := fold_left (fun b c => registered c b)
                  (registrations w1 entries) (self st);
        trace := trace st ++ evs |}).
Proof.
  destruct st as [w b tr]. cbn [world self trace].
  intros Hload Hget Hne Hall.
  unfold connect_to_servers, try_except, load_servers.
  unfold bind at 1, print, emit. cbn [world self trace].
  unfold bind at 1. cbn [world self trace].
  unfold bind at 1. cbn [world self trace].
  unfold bind at 1, call. cbn [world self trace].
  rewrite Hload, Hget. cbn [getattr py_len].
  destruct entries as [|entry entries]; [congruence|].
  cbn [List.length Nat.eqb]. unfold bind at 1. cbn [world self trace].
  unfold bind at 1.
  match goal with
  | |- context [for_each _ connect_entry ?st1] =>
      destruct (connect_entries_spec (entry :: entries) st1 Hall)
        as (w' & evs & H)
  end.
  cbn [world self trace] in H. rewrite H.
  unfold bind at 1, get_self. cbn [world self trace].
  exists w'.
  destruct (available_tools _); eexists; unfold bind, ret;
    cbn [world self trace]; rewrite <- !app_assoc; reflexivity.
Qed.

End ServersFacts.

(** C7. Over the entries of the configuration, in its order, no
    registration raises; afterwards a key resolves to the session of the
    last backend that registered it: to the later of two backends that
    registered the same name, and, for a name one backend alone registered,
    to that backend. *)
Theorem C7_last_registration_wins :
  forall (W : Type) (X : Externals W) (entries : list (string * json))
         (st : state W),
    Forall (fun entry => exists line, command_line (snd entry) = inr line)
           entries ->
    exists st',
      for_each entries connect_entry st = (Return tt, st')
      /\ (forall k,
             PyDict.get k (sessions (self st')) =
             match last_registrant k (registrations (world st) entries) with
             | Some s => Some s
             | None => PyDict.get k (sessions (self st))
             end)
      /\ (forall before c rest k,
             registrations (world st) entries = (before ++ c :: rest)%list ->
             In k (cap_keys c) ->
             (forall c', In c' rest -> ~ In k (cap_keys c')) ->
             PyDict.get k (sessions (self st')) = Some (cap_session c))
      /\ (forall w0 w1 o,
             world st = w0 ->
             load_config w0 = (w1, inr (JObj o)) ->
             PyDict.get "mcpServers" o = Some (JObj entries) ->
             entries <> [] ->
             exists st'',
               connect_to_servers st = (Return true, st'')
               /\ self st'' = fold_left (fun b c => registered c b)
                                (registrations w1 entries) (self st)).
Proof.
  intros W X entries st Hall.
  destruct (connect_entries_spec entries st Hall) as (w' & evs & H).
  eexists. split; [exact H|]. cbn [self].
  assert (Hget : forall k,
             PyDict.get k (sessions (fold_left (fun b c => registered c b)
                                       (registrations (world st) entries) (self st))) =
             match last_registrant k (registrations (world st) entries) with
             | Some s => Some s
             | None => PyDict.get k (sessions (self st))
             end) by (intros k; apply get_registered).
  split; [exact Hget|]. split.
  - intros before c rest k Hregs Hin Hlater. rewrite Hget, Hregs.
    rewrite last_registrant_app. cbn [last_registrant].
    rewrite (last_registrant_none k rest Hlater).
    apply existsb_eqb_In in Hin. now rewrite Hin.
  - intros w0 w1 o Hw Hload Hmcp Hne. subst w0.
    destruct (connect_to_servers_spec entries st w1 o Hload Hmcp Hne Hall)
      as (w2 & evs2 & H2).
    eexists. split; [exact H2|]. reflexivity.
Qed.

(** C9. Tools, prompts and resources of a backend go into the one mapping
    [self.sessions]: after a backend that lists a prompt or a resource under
    some string is connected, that string resolves to its session, whatever
    the mapping held for it (the session of an earlier backend's tool, say);
    the descriptors of the earlier tools are still in the list sent to the
    model, and a tool request under that string is sent to the later
    backend. *)
Theorem C9_kinds_share_one_mapping :
  forall (W : Type) (X : Externals W) (server_name : string)
         (server_config : json) (st : state W) (w' : W) (c : capabilities)
         (name : string),
    probe (world st) server_name server_config = (w', Some c) ->
    In name (map prompt_name (cap_prompts c))
    \/ In name (map resource_uri (cap_resources c)) ->
    exists st',
      connect_to_server server_name server_config st = (Return true, st')
      /\ sessions (self st')
         = register (cap_session c)
             (map tool_name (cap_tools c) ++ map prompt_name (cap_prompts c)
              ++ map resource_uri (cap_resources c))
             (sessions (self st))
      /\ PyDict.get name (sessions (self st')) = Some (cap_session c)
      /\ (forall td, In td (available_tools (self st)) ->
                     In td (available_tools (self st')))
      /\ (forall a id input rest h t,
             response_loop a (ToolUse id name input :: rest) h t st'
             = (emit (CallTool (cap_session c) name input) ;;
                result <- call (fun w => session_call_tool w (cap_session c) name input) ;;
                response_loop a rest true
                  (messages_append (ToolResult id result)
                     (messages_append (Assistant a)
                        (list_append a (ToolUse id name input) t)))) st').
Proof.
  intros W X server_name server_config st w' c name Hprobe Hin.
  destruct (connect_to_server_spec server_name server_config st w' (Some c) Hprobe)
    as [evs H].
  eexists. split; [exact H|]. cbn [self].
  assert (Hget : PyDict.get name (sessions (registered c (self st)))
                 = Some (cap_session c)).
  { cbn [registered sessions]. rewrite get_register.
    assert (Hk : In name (cap_keys c)).
    { unfold cap_keys. apply in_or_app. right. apply in_or_app.
      destruct Hin; [now left|now right]. }
    apply existsb_eqb_In in Hk. now rewrite Hk. }
  split; [reflexivity|]. split; [exact Hget|]. split.
  - intros td Htd. cbn [registered available_tools]. apply in_or_app. now left.
  - intros a id input rest h t. cbn [response_loop].
    unfold bind at 1, get_self. cbn [self]. rewrite Hget. reflexivity.
Qed.

(** C1, as the code has it. With a configuration file that is a JSON object
    whose [mcpServers] is missing or is an empty mapping,
    [connect_to_servers] prints that no server was found and returns
    [False]; [main] then prints the failure, closes and ends (as the close
    does) without starting the input loop; the tool and prompt lists are
    empty and no key resolves. *)
Theorem C1_no_server_is_a_failure :
  forall (W : Type) (X : Externals W) (w w1 : W) (o : list (string * json))
         (fuel : nat) (inputs : list user_input),
    load_config w = (w1, inr (JObj o)) ->
    PyDict.get "mcpServers" o = None
    \/ PyDict.get "mcpServers" o = Some (JObj []) ->
    let bootstrap :=
      [Print (PyStr.nl ++ "Initializing MCP servers...");
       Print "Loading server configuration...";
       OpenConfig;
       Print "Found 0 server(s) in config";
       Print "No servers found in configuration"] in
    connect_to_servers (boot w)
    = (Return false, {| world := w1; self := new_chatbot; trace := bootstrap |})
    /\ main fuel inputs (boot w)
       = (closed_outcome w1,
          {| world := fst (aclose w1); self := new_chatbot;
             trace :=
               (Print (PyStr.nl ++ "=== MCP ChatBot ===") :: bootstrap ++
                [Print (PyStr.nl ++ "Failed to initialize required servers. Exiting.");
                 Close])%list |})
    /\ available_tools new_chatbot = []
    /\ available_prompts new_chatbot = []
    /\ (forall k, PyDict.get k (sessions new_chatbot) = None
                  /\ resource_session (sessions new_chatbot) k = None).
Proof.
  intros W X w w1 o fuel inputs Hload Hmcp bootstrap.
  assert (Hservers : getattr (PyDict.get "mcpServers" o) (JObj []) = JObj [])
    by (destruct Hmcp as [-> | ->]; reflexivity).
  assert (Hconnect : forall tr,
             connect_to_servers {| world := w; self := new_chatbot; trace := tr |}
             = (Return false,
                {| world := w1; self := new_chatbot;
                   trace := (tr ++ bootstrap)%list |})).
  { intros tr. unfold connect_to_servers, try_except, load_servers.
    unfold bind at 1, print, emit. cbn [world self trace].
    unfold bind at 1. cbn [world self trace].
    unfold bind at 1. cbn [world self trace].
    unfold bind at 1, call. cbn [world self trace].
    rewrite Hload, Hservers.
    cbn [py_len List.length Nat.eqb]. unfold bind, ret.
    cbn [world self trace]. rewrite <- !app_assoc. reflexivity. }
  split; [exact (Hconnect [])|]. split; [|repeat split].
  - unfold main, boot. unfold bind at 1, print, emit.
    unfold bind at 1, set_self. cbn [world self trace].
    unfold try_finally, try_except. unfold bind at 1.
    rewrite Hconnect. unfold print, emit, cleanup, bind, emit, call.
    cbn [world self trace]. unfold closed_outcome.
    destruct (aclose w1) as [w2 [e|[]]]; cbn [fst snd];
      rewrite <- !app_assoc; reflexivity.
  - unfold new_chatbot, resource_session. cbn [sessions PyDict.get first_papers].
    now destruct (PyStr.startswith k "papers://").
Qed.

(** ** The program on the scenarios *)

(** C1 as the specification states it fails: with an empty [mcpServers],
    [connect_to_servers] returns [False], not the success value, and [main]
    ends without reading a line. *)
Lemma C1_counterexample :
  fst (connect_to_servers (boot Scenario.no_servers)) = Return false
  /\ fst (connect_to_servers (boot Scenario.no_servers)) <> Return true
  /\ (forall prompt,
         ~ In (ReadLine prompt)
              (trace (snd (main 3 [Line "hello"; Line "quit"]
                             (boot Scenario.no_servers))))).
Proof.
  split; [reflexivity|]. split; [discriminate|].
  intros prompt Hin. cbv in Hin.
  repeat (destruct Hin as [Hin|Hin]; [discriminate|]). exact Hin.
Qed.

Lemma C1_witness :
  connect_to_servers (boot Scenario.no_servers)
  = (Return false,
     {| world := Scenario.no_servers; self := new_chatbot;
        trace := [Print (PyStr.nl ++ "Initializing MCP servers...");
                  Print "Loading server configuration...";
                  OpenConfig;
                  Print "Found 0 server(s) in config";
                  Print "No servers found in configuration"] |}).
Proof.
  apply (C1_no_server_is_a_failure Script.world _ Scenario.no_servers
           Scenario.no_servers [("mcpServers", JObj [])] 0 []).
  - reflexivity.
  - right. reflexivity.
Defined.

(** C2. The code does not do it: on an answer with two tool requests (and a
    text between them), [messages] gets the assistant message twice, before
    each tool result, both entries being the one list [assistant_content];
    the next request to the model carries the bundle of all three blocks
    twice, each time followed by one tool result only. The list is built
    once for the answer and holds every block, as for one message; the
    [append] of line 150 is inside the loop over the blocks. *)
Theorem C2_assistant_message_is_appended_twice :
  exists t' st',
    turn (initial_transcript "q") Scenario.asks_twice = (Return (inr t'), st')
    /\ messages t'
       = [UserText "q";
          Assistant 0; ToolResult "id1" (JStr "t done");
          Assistant 0; ToolResult "id2" (JStr "t done")]
    /\ heap t' = [Scenario.two_requests]
    /\ view t'
       = [ApiUser "q";
          ApiAssistant Scenario.two_requests; ApiToolResult "id1" (JStr "t done");
          ApiAssistant Scenario.two_requests; ApiToolResult "id2" (JStr "t done")]
    /\ List.length (filter is_assistant (messages t')) = 2
    /\ List.length (filter is_assistant (messages t')) <> 1.
Proof.
  eexists. eexists. split; [reflexivity|]. cbn.
  repeat split; try reflexivity. discriminate.
Qed.

(** The same answer, through the general statement. *)
Lemma assistant_message_per_request_run :
  exists t' st' new,
    turn (initial_transcript "q") Scenario.asks_twice = (Return (inr t'), st')
    /\ messages t' = (messages (initial_transcript "q") ++ new)%list
    /\ filter is_assistant new = [Assistant 0; Assistant 0]
    /\ (forall m, In m new -> is_assistant m = true ->
                  deref (heap t') m = ApiAssistant Scenario.two_requests).
Proof.
  destruct (assistant_message_per_request Script.world _
              (initial_transcript "q") Scenario.asks_twice
              (Script.make JNull [] [[Text "done"]])
              (Script.make JNull [] [[Text "done"]])
              Scenario.two_requests [JStr "t done"; JStr "t done"])
    as (t' & st' & new & H1 & H2 & H3 & H4 & H5 & H6 & H7);
    [reflexivity|reflexivity|reflexivity|].
  exists t', st', new. repeat split; assumption.
Defined.

Lemma C3_witness :
  exists st',
    turn (initial_transcript "q") Scenario.asks_missing
    = (Return
         (inr {| heap := [[Text "a"; ToolUse "id1" "t" JNull;
                           ToolUse "id2" "missing" JNull]];
                 messages := [UserText "q";
                              Assistant 0; ToolResult "id1" (JStr "t done");
                              Assistant 0] |}),
       st')
    /\ calls_of (trace st') = [(1, "t", JNull)]
    /\ In (Print "Tool 'missing' not found.") (trace st').
Proof.
  eexists. split; [|split].
  - apply (C3_unresolved_tool_skips_the_rest Script.world _
             (initial_transcript "q") Scenario.asks_missing
             (Script.make JNull [] [[Text "done"]])
             (Script.make JNull [] [[Text "done"]])
             Scenario.before_missing Scenario.after_missing
             "id2" "missing" JNull [JStr "t done"]);
      reflexivity.
  - reflexivity.
  - cbn. auto 10.
Defined.

Lemma C5_witness :
  exists h' t' evs,
    response_loop 0 Scenario.two_requests false
      {| heap := [[]]; messages := [UserText "q"] |} Scenario.asks_twice
    = (Return (h', t'),
       {| world := world Scenario.asks_twice; self := Scenario.with_tool;
          trace := evs |})
    /\ calls_of evs = [(1, "t", JNull); (1, "t", JNull)]
    /\ results_of (messages t')
       = [("id1", JStr "t done"); ("id2", JStr "t done")].
Proof.
  destruct (C5_requests_dispatched_in_order Script.world _ 0
              Scenario.two_requests false
              {| heap := [[]]; messages := [UserText "q"] |}
              Scenario.asks_twice (world Scenario.asks_twice)
              [JStr "t done"; JStr "t done"])
    as (h' & t' & evs & H1 & H2 & H3 & _); [reflexivity|].
  exists h', t', evs. repeat split; assumption.
Defined.

Lemma C7_witness :
  exists st',
    for_each [Script.entry "a"; Script.entry "b"] connect_entry Scenario.same_tool
    = (Return tt, st')
    /\ PyDict.get "t" (sessions (self st')) = Some 2.
Proof.
  destruct (C7_last_registration_wins Script.world _
              [Script.entry "a"; Script.entry "b"] Scenario.same_tool)
    as (st' & H1 & H2 & _).
  - repeat constructor; eexists; reflexivity.
  - exists st'. split; [exact H1|]. rewrite H2. reflexivity.
Defined.

Lemma C9_witness :
  PyDict.get "t" (sessions (self Scenario.prompt_named_as_tool)) = Some 1
  /\ exists st',
       connect_to_server "b" JNull Scenario.prompt_named_as_tool
       = (Return true, st')
       /\ PyDict.get "t" (sessions (self st')) = Some 2.
Proof.
  split; [reflexivity|].
  destruct (C9_kinds_share_one_mapping Script.world _ "b" JNull
              Scenario.prompt_named_as_tool
              (world Scenario.prompt_named_as_tool)
              {| cap_session := 2; cap_tools := [];
                 cap_prompts := [{| prompt_name := "t"; prompt_description := None;
                                    prompt_arguments := None |}];
                 cap_resources := [] |}
              "t")
    as (st' & H1 & _ & H3 & _).
  - reflexivity.
  - left. cbn. now left.
  - exists st'. split; assumption.
Defined.

Lemma C4_witness :
  fst (process_query 2 "q" Scenario.asks_twice) = Return tt
  /\ (forall t' st',
         turn (initial_transcript "q") Scenario.asks_twice
         <> (Return (inl t'), st')).
Proof.
  destruct (C4_loop_ends_without_tool_request Script.world _
              (initial_transcript "q") Scenario.asks_twice) as (Ha & Hb & _).
  split.
  - edestruct (Ha 1) as (t' & st' & _ & _ & _ & Hq).
    + econstructor; [reflexivity|constructor].
    + reflexivity.
    + reflexivity.
    + apply Nat.lt_succ_diag_r.
    + exact (Hq "q" eq_refl).
  - edestruct Hb as [Hnever _].
    + reflexivity.
    + reflexivity.
    + exact Hnever.
Defined.

Lemma C6_witness :
  resource_session [("t", 1); ("papers://folders", 2)] "papers://ai" = Some 2
  /\ resource_session [("t", 1); ("papers://folders", 2)] "other://ai" = None.
Proof.
  destruct (C6_exact_names_and_papers_fallback Script.world _)
    as (_ & _ & Hres & _).
  destruct (Hres [("t", 1); ("papers://folders", 2)] "papers://ai")
    as (_ & _ & Hpapers & _).
  destruct (Hres [("t", 1); ("papers://folders", 2)] "other://ai")
    as (_ & Hother & _).
  split.
  - rewrite (Hpapers eq_refl eq_refl). reflexivity.
  - apply Hother; reflexivity.
Defined.

(** * Further properties *)

(** ** Computations that leave the object alone *)

Section ReadOnly.
Context {W : Type} {X : Externals W}.

Lemma follows_refl (st : state W) : follows st st.
Proof. split; [reflexivity|]. exists []. now rewrite app_nil_r. Qed.

Lemma follows_trans (st1 st2 st3 : state W) :
  follows st1 st2 -> follows st2 st3 -> follows st1 st3.
Proof.
  intros [H1 [evs1 E1]] [H2 [evs2 E2]]. split; [congruence|].
  exists (evs1 ++ evs2)%list. now rewrite E2, E1, app_assoc.
Qed.

Lemma follows_emit (st : state W) (e : event) :
  follows st {| world := world st; self := self st; trace := trace st ++ [e] |}.
Proof. split; [reflexivity|]. now exists [e]. Qed.

Lemma read_only_ret {A} (a : A) : read_only (ret (W := W) a).
Proof. intros st. apply follows_refl. Qed.

Lemma read_only_raise {A} (e : exn) : read_only (raise (W := W) (A := A) e).
Proof. intros st. apply follows_refl. Qed.

Lemma read_only_unfinished {A} : read_only (unfinished (W := W) (A := A)).
Proof. intros st. apply follows_refl. Qed.

Lemma read_only_emit (e : event) : read_only (emit (W := W) e).
Proof. intros st. apply follows_emit. Qed.

Lemma read_only_print (text : string) : read_only (print (W := W) text).
Proof. apply read_only_emit. Qed.

Lemma read_only_get_self : read_only (get_self (W := W)).
Proof. intros st. apply follows_refl. Qed.

Lemma read_only_call {A} (f : W -> W * (exn + A)) : read_only (call f).
Proof.
  intros [w b tr]. unfold call. cbn [world self trace].
  destruct (f w) as [w1 [e|a]]; split; cbn; try reflexivity;
    exists []; now rewrite app_nil_r.
Qed.

Lemma read_only_ask {A} (f : W -> W * A) : read_only (ask f).
Proof.
  intros [w b tr]. unfold ask. cbn [world self trace].
  destruct (f w) as [w1 a]. split; cbn; [reflexivity|].
  exists []. now rewrite app_nil_r.
Qed.

Lemma read_only_bind {A B} (m : M W A) (k : A -> M W B) :
  read_only m -> (forall a, read_only (k a)) -> read_only (bind m k).
Proof.
  intros Hm Hk st. unfold bind. specialize (Hm st).
  destruct (m st) as [[a|e|] st1]; cbn [snd] in *; try exact Hm.
  eapply follows_trans; [exact Hm|apply Hk].
Qed.

Lemma read_only_try_except {A} (m : M W A) (handler : exn -> M W A) :
  read_only m -> (forall e, read_only (handler e)) ->
  read_only (try_except m handler).
Proof.
  intros Hm Hh st. unfold try_except. specialize (Hm st).
  destruct (m st) as [[a|e|] st1]; cbn [snd] in *; try exact Hm.
  eapply follows_trans; [exact Hm|apply Hh].
Qed.

Lemma read_only_for_each {A} (l : list A) (body : A -> M W unit) :
  (forall x, read_only (body x)) -> read_only (for_each l body).
Proof.
  intros Hbody. induction l as [|x l IH]; cbn [for_each].
  - apply read_only_ret.
  - apply read_only_bind; [apply Hbody|intros _; exact IH].
Qed.

Lemma read_only_response_loop (a : nat) (contents : list segment) :
  forall h t, read_only (response_loop a contents h t).
Proof.
  induction contents as [|c rest IH]; intros h t; cbn [response_loop].
  - apply read_only_ret.
  - destruct c as [text|id name input|ty].
    + apply read_only_bind; [apply read_only_print|intros _; apply IH].
    + apply read_only_bind; [apply read_only_get_self|]. intros b.
      destruct (PyDict.get name (sessions b)) as [s|].
      * apply read_only_bind; [apply read_only_emit|]. intros _.
        apply read_only_bind; [apply read_only_call|]. intros r. apply IH.
      * apply read_only_bind; [apply read_only_print|]. intros _.
        apply read_only_ret.
    + apply IH.
Qed.

Lemma read_only_turn (t : transcript) : read_only (turn t).
Proof.
  unfold turn. apply read_only_bind; [apply read_only_get_self|]. intros b.
  apply read_only_bind; [apply read_only_emit|]. intros _.
  apply read_only_bind; [apply read_only_call|]. intros response.
  unfold new_list. apply read_only_bind; [apply read_only_response_loop|].
  intros [[|] t1]; apply read_only_ret.
Qed.

Lemma read_only_tool_use_loop (fuel : nat) :
  forall t, read_only (tool_use_loop fuel t).
Proof.
  induction fuel as [|fuel IH]; intros t; cbn [tool_use_loop].
  - apply read_only_unfinished.
  - apply read_only_bind; [apply read_only_turn|].
    intros [t'|t']; [apply read_only_ret|apply IH].
Qed.

Lemma read_only_process_query (fuel : nat) (query : string) :
  read_only (process_query fuel query).
Proof.
  unfold process_query.
  apply read_only_bind; [apply read_only_tool_use_loop|].
  intros _. apply read_only_ret.
Qed.

Lemma read_only_get_resource (uri : string) : read_only (get_resource uri).
Proof.
  unfold get_resource. apply read_only_bind; [apply read_only_get_self|].
  intros b. destruct (resource_session (sessions b) uri) as [s|];
    [|apply read_only_print].
  apply read_only_try_except; [|intros e; apply read_only_print].
  apply read_only_bind; [apply read_only_emit|]. intros _.
  apply read_only_bind; [apply read_only_call|].
  intros [[|first others]|]; try apply read_only_print.
  apply read_only_bind; [apply read_only_print|]. intros _.
  apply read_only_bind; [apply read_only_print|]. intros _.
  destruct first; [apply read_only_print|apply read_only_raise].
Qed.

Lemma read_only_list_prompts : read_only (list_prompts (W := W)).
Proof.
  unfold list_prompts. apply read_only_bind; [apply read_only_get_self|].
  intros b. destruct (available_prompts b) as [|p ps]; [apply read_only_print|].
  apply read_only_bind; [apply read_only_print|]. intros _.
  apply read_only_for_each. intros prompt. unfold print_prompt.
  apply read_only_bind; [apply read_only_print|]. intros _.
  destruct (pd_arguments prompt) as [|arg args]; [apply read_only_ret|].
  apply read_only_bind; [apply read_only_print|]. intros _.
  apply read_only_for_each. intros x. apply read_only_print.
Qed.

Lemma read_only_execute_prompt (fuel : nat) (name : string)
    (args : PyDict.t string) :
  read_only (execute_prompt fuel name args).
Proof.
  unfold execute_prompt. apply read_only_bind; [apply read_only_get_self|].
  intros b. destruct (PyDict.get name (sessions b)) as [s|];
    [|apply read_only_print].
  apply read_only_try_except; [|intros e; apply read_only_print].
  apply read_only_bind; [apply read_only_emit|]. intros _.
  apply read_only_bind; [apply read_only_call|].
  intros [[|first others]|]; try apply read_only_ret.
  apply read_only_bind; [apply read_only_print|]. intros _.
  apply read_only_process_query.
Qed.

Lemma read_only_slash_command (fuel : nat) (query : string) :
  read_only (slash_command fuel query).
Proof.
  unfold slash_command. destruct (PyStr.split query) as [|part0 others];
    [apply read_only_raise|].
  destruct (String.eqb (PyStr.lower part0) "/prompts").
  { apply read_only_bind; [apply read_only_list_prompts|].
    intros _. apply read_only_ret. }
  destruct (String.eqb (PyStr.lower part0) "/prompt").
  - destruct others as [|prompt_name tokens].
    + apply read_only_bind; [apply read_only_print|]. intros _.
      apply read_only_ret.
    + apply read_only_bind; [apply read_only_execute_prompt|]. intros _.
      apply read_only_ret.
  - apply read_only_bind; [apply read_only_print|]. intros _.
    apply read_only_ret.
Qed.

Lemma read_only_chat_turn (fuel : nat) (inp : user_input) :
  read_only (chat_turn fuel inp).
Proof.
  unfold chat_turn. apply read_only_try_except.
  - apply read_only_bind; [apply read_only_emit|]. intros _.
    destruct inp as [s| |].
    + destruct (String.eqb (PyStr.strip s) ""); [apply read_only_ret|].
      destruct (String.eqb (PyStr.lower (PyStr.strip s)) "quit");
        [apply read_only_ret|].
      destruct (PyStr.startswith (PyStr.strip s) "@").
      { unfold at_resource.
        apply read_only_bind; [apply read_only_get_resource|].
        intros _. apply read_only_ret. }
      destruct (PyStr.startswith (PyStr.strip s) "/");
        [apply read_only_slash_command|].
      apply read_only_bind; [apply read_only_process_query|].
      intros _. apply read_only_ret.
    + apply read_only_bind; [apply read_only_print|]. intros _.
      apply read_only_ret.
    + apply read_only_bind; [apply read_only_print|]. intros _.
      apply read_only_ret.
  - intros e. apply read_only_bind; [apply read_only_print|]. intros _.
    apply read_only_ret.
Qed.

Lemma read_only_input_loop (fuel : nat) (inputs : list user_input) :
  read_only (input_loop fuel inputs).
Proof.
  induction inputs as [|inp rest IH]; cbn [input_loop].
  - apply read_only_unfinished.
  - apply read_only_bind; [apply read_only_chat_turn|].
    intros [|]; [exact IH|apply read_only_ret].
Qed.

End ReadOnly.

(** X1. Once the servers are connected nothing writes to the object: a turn
    of the input loop, whatever the line and whatever the backends and the
    model do, and so the whole of [chat_loop], leaves [self.sessions],
    [self.available_tools] and [self.available_prompts] as they were and
    only adds to what was printed and called. *)
Theorem X1_registry_is_read_only_after_bootstrap :
  forall (W : Type) (X : Externals W) (fuel : nat) (st : state W),
    (forall inp,
        self (snd (chat_turn fuel inp st)) = self st
        /\ exists evs, trace (snd (chat_turn fuel inp st)) = (trace st ++ evs)%list)
    /\ (forall inputs,
           self (snd (chat_loop fuel inputs st)) = self st
           /\ exists evs,
                trace (snd (chat_loop fuel inputs st)) = (trace st ++ evs)%list).
Proof.
  intros W X fuel st. split.
  - intros inp. apply read_only_chat_turn.
  - intros inputs. unfold chat_loop.
    repeat (apply read_only_bind; [apply read_only_print|intros _]).
    apply read_only_input_loop.
Qed.

(** ** Computations that need no fuel *)

Section Ends.
Context {W : Type} {X : Externals W}.













Lemma returns_print_then {A} (text : string) (a : A) :
  returns (print (W := W) text ;; ret a).
Proof. intros st. eexists. eexists. reflexivity. Qed.








End Ends.


(** ** Failures during the bootstrap *)

Section BootstrapFailures.
Context {W : Type} {X : Externals W}.

Lemma connect_tools_raises (s : session) (st : state W) (w' : W) (e : exn) :
  session_list_tools (world st) s = (w', ListRaises e) ->
  connect_tools s st =
  (Return tt,
   {| world := w'; self := self st;
      trace := trace st ++
        [ListTools s; Print ("  ⚠️ Could not list tools: " ++ str_exn e)] |}).
Proof.
  destruct st as [w b tr]. cbn [world self trace]. intros H.
  unfold connect_tools, try_except, enumerate.
  unfold bind at 1. unfold bind at 1, ask. cbn [world self trace]. rewrite H.
  unfold bind, emit, raise, print, emit. cbn [world self trace].
  now rewrite <- app_assoc.
Qed.

End BootstrapFailures.

(** X3. A server that fails to launch: [connect_to_server] prints the
    error, returns [False] and leaves the object as it was; the loop of
    [connect_to_servers] prints the error a second time and goes on to the
    next entry. *)
Theorem X3_failed_launch_changes_nothing :
  forall (W : Type) (X : Externals W) (server_name : string)
         (server_config : json) (st : state W) (w1 : W) (e : exn),
    launch (world st) server_name server_config = (w1, inl e) ->
    connect_to_server server_name server_config st
    = (Return false,
       {| world := w1; self := self st;
          trace := trace st ++
            [Print ("Connecting to " ++ server_name ++ " server...");
             Launch server_name server_config;
             Print ("  ✗ Error connecting to " ++ server_name ++ ": " ++ str_exn e)] |})
    /\ (forall line,
           command_line server_config = inr line ->
           connect_entry (server_name, server_config) st
           = (Return tt,
              {| world := w1; self := self st;
                 trace := trace st ++
                   [Print (PyStr.nl ++ "Attempting to connect to " ++ server_name ++ "...");
                    Print line;
                    Print ("Connecting to " ++ server_name ++ " server...");
                    Launch server_name server_config;
                    Print ("  ✗ Error connecting to " ++ server_name ++ ": " ++ str_exn e);
                    Print ("  ✗ Error connecting to " ++ server_name)] |})).
Proof.
  intros W X server_name server_config [w b tr] w1 e.
  cbn [world self trace]. intros Hlaunch.
  assert (Hserver : forall tr0,
             connect_to_server server_name server_config
               {| world := w; self := b; trace := tr0 |}
             = (Return false,
                {| world := w1; self := b;
                   trace := tr0 ++
                     [Print ("Connecting to " ++ server_name ++ " server...");
                      Launch server_name server_config;
                      Print ("  ✗ Error connecting to " ++ server_name ++ ": "
                             ++ str_exn e)] |})).
  { intros tr0. unfold connect_to_server, try_except.
    unfold bind at 1, print at 1, emit at 1. unfold bind at 1, emit at 1.
    unfold bind at 1, call. cbn [world self trace]. rewrite Hlaunch.
    unfold bind, print, emit, ret. cbn [world self trace].
    now rewrite <- !app_assoc. }
  split; [apply Hserver|].
  intros line Hline. unfold connect_entry.
  unfold bind at 1, print at 1, emit at 1. cbn [world self trace].
  rewrite Hline. unfold bind at 1, print at 1, emit at 1.
  cbn [world self trace]. unfold bind at 1. rewrite Hserver.
  unfold print, emit. cbn [world self trace]. now rewrite <- !app_assoc.
Qed.

(** X4. A backend whose [list_tools] raises is connected all the same: the
    failure is printed, no tool is registered, its prompts and resources are
    registered as they would have been, and [connect_to_server] returns
    [True]. *)
Theorem X4_failed_listing_is_skipped :
  forall (W : Type) (X : Externals W) (server_name : string)
         (server_config : json) (st : state W) (w1 w2 w3 w4 : W)
         (s : session) (e : exn) (lp : listing prompt_info)
         (lr : listing resource_info),
    launch (world st) server_name server_config = (w1, inr s) ->
    session_list_tools w1 s = (w2, ListRaises e) ->
    session_list_prompts w2 s = (w3, lp) ->
    session_list_resources w3 s = (w4, lr) ->
    exists evs,
      connect_to_server server_name server_config st
      = (Return true,
         {| world := w4;
            self :=
              {| available_tools := available_tools (self st);
                 available_prompts :=
                   available_prompts (self st) ++ map prompt_entry (items lp);
                 sessions :=
                   register s (map prompt_name (items lp) ++
                               map resource_uri (items lr))
                     (sessions (self st)) |};
            trace :=
              (trace st ++
               [Print ("Connecting to " ++ server_name ++ " server...");
                Launch server_name server_config;
                ListTools s;
                Print ("  ⚠️ Could not list tools: " ++ str_exn e)] ++ evs)%list |}).
Proof.
  intros W X server_name server_config [w b tr] w1 w2 w3 w4 s e lp lr.
  cbn [world self trace]. intros Hlaunch Ht Hp Hr.
  unfold connect_to_server, try_except.
  unfold bind at 1, print at 1, emit at 1. unfold bind at 1, emit at 1.
  unfold bind at 1, call. cbn [world self trace]. rewrite Hlaunch.
  unfold bind at 1.
  rewrite (connect_tools_raises s
             {| world := w1; self := b;
                trace := (tr ++ [Print ("Connecting to " ++ server_name ++ " server...")])
                         ++ [Launch server_name server_config] |} w2 e Ht).
  cbn [world self trace]. unfold bind at 1.
  match goal with
  | |- context [connect_prompts s ?st1] =>
      destruct (connect_prompts_spec s st1 w3 lp Hp) as [evs2 H2]
  end.
  cbn [world self trace available_tools available_prompts sessions] in H2.
  rewrite H2. unfold bind at 1.
  match goal with
  | |- context [connect_resources s ?st2] =>
      destruct (connect_resources_spec s st2 w4 lr Hr) as [evs3 H3]
  end.
  cbn [world self trace available_tools available_prompts sessions] in H3.
  rewrite H3. exists (evs2 ++ evs3 ++ [Print ("  ✓ Successfully connected to " ++ server_name)])%list.
  unfold bind, print, emit, ret. cbn [world self trace].
  rewrite register_app, <- !app_assoc. reflexivity.
Qed.

(** X5. A configuration file that cannot be loaded: [connect_to_servers]
    prints what went wrong (two lines for a missing file, one for invalid
    JSON, the message of any other exception), returns [False] and starts
    no backend; [main] then prints the failure and closes, ending as the
    close does, and no line of input is read. *)
Theorem X5_unreadable_configuration_is_fatal :
  forall (W : Type) (X : Externals W) (w w1 : W) (e : exn)
         (fuel : nat) (inputs : list user_input),
    load_config w = (w1, inl e) ->
    exists lines,
      connect_to_servers (boot w)
      = (Return false,
         {| world := w1; self := new_chatbot;
            trace :=
              [Print (PyStr.nl ++ "Initializing MCP servers...");
               Print "Loading server configuration..."; OpenConfig]
              ++ map Print lines |})
      /\ main fuel inputs (boot w)
         = (closed_outcome w1,
            {| world := fst (aclose w1); self := new_chatbot;
               trace :=
                 ([Print (PyStr.nl ++ "=== MCP ChatBot ===");
                   Print (PyStr.nl ++ "Initializing MCP servers...");
                   Print "Loading server configuration..."; OpenConfig]
                  ++ map Print lines
                  ++ [Print (PyStr.nl ++ "Failed to initialize required servers. Exiting.");
                      Close])%list |})
      /\ (forall msg, e = FileNotFoundError msg ->
            lines = ["Error: server_config.json not found in current directory";
                     "  ✗ Error: server_config.json not found"])
      /\ (forall msg, e = JSONDecodeError msg ->
            lines = ["  ✗ Error: server_config.json contains invalid JSON"])
      /\ (forall msg, e = AttributeError msg \/ e = TypeError msg
                      \/ e = OtherException msg ->
            lines = ["  ✗ Error loading server config: " ++ msg]).
Proof.
  intros W X w w1 e fuel inputs Hload.
  exists (match e with
          | FileNotFoundError _ =>
              ["Error: server_config.json not found in current directory";
               "  ✗ Error: server_config.json not found"]
          | JSONDecodeError _ =>
              ["  ✗ Error: server_config.json contains invalid JSON"]
          | _ => ["  ✗ Error loading server config: " ++ str_exn e]
          end).
  assert (Hconnect : forall tr,
             connect_to_servers {| world := w; self := new_chatbot; trace := tr |}
             = (Return false,
                {| world := w1; self := new_chatbot;
                   trace := (tr ++
                     [Print (PyStr.nl ++ "Initializing MCP servers...");
                      Print "Loading server configuration..."; OpenConfig]
                     ++ map Print
                          (match e with
                           | FileNotFoundError _ =>
                               ["Error: server_config.json not found in current directory";
                                "  ✗ Error: server_config.json not found"]
                           | JSONDecodeError _ =>
                               ["  ✗ Error: server_config.json contains invalid JSON"]
                           | _ => [("  ✗ Error loading server config: "
                                    ++ str_exn e)%string]
                           end))%list |})).
  { intros tr. unfold connect_to_servers, try_except, load_servers.
    unfold bind at 1, print at 1, emit at 1. cbn [world self trace].
    unfold bind at 1, print at 1, emit at 1. cbn [world self trace].
    unfold bind at 1, emit at 1. cbn [world self trace].
    unfold bind at 1, call. cbn [world self trace]. rewrite Hload.
    destruct e; unfold bind, print, emit, ret; cbn [world self trace map];
      rewrite <- !app_assoc; reflexivity. }
  split; [exact (Hconnect [])|]. split.
  - unfold main, boot. unfold bind at 1, print at 1, emit at 1.
    unfold bind at 1, set_self. cbn [world self trace].
    unfold try_finally, try_except. unfold bind at 1.
    rewrite Hconnect. unfold print, emit, cleanup, bind, emit, call.
    cbn [world self trace]. unfold closed_outcome.
    destruct (aclose w1) as [w2 [e0|[]]]; cbn [fst snd];
      rewrite <- !app_assoc; reflexivity.
  - split; [|split].
    + intros msg ->. reflexivity.
    + intros msg ->. reflexivity.
    + intros msg [-> | [-> | ->]]; reflexivity.
Qed.

(** ** What the bootstrap keeps *)

Section Keeps.
Context {W : Type} {X : Externals W}.
Variable P : chatbot -> Prop.

Lemma keeps_quiet {A} (m : M W A) : read_only m -> keeps P m.
Proof. intros Hm st HP. destruct (Hm st) as [-> _]. exact HP. Qed.

Lemma keeps_bind {A B} (m : M W A) (k : A -> M W B) :
  keeps P m -> (forall a, keeps P (k a)) -> keeps P (bind m k).
Proof.
  intros Hm Hk st HP. unfold bind. specialize (Hm st HP).
  destruct (m st) as [[a|e|] st1]; cbn [snd] in *; try exact Hm.
  now apply Hk.
Qed.

Lemma keeps_try_except {A} (m : M W A) (handler : exn -> M W A) :
  keeps P m -> (forall e, keeps P (handler e)) -> keeps P (try_except m handler).
Proof.
  intros Hm Hh st HP. unfold try_except. specialize (Hm st HP).
  destruct (m st) as [[a|e|] st1]; cbn [snd] in *; try exact Hm.
  now apply Hh.
Qed.

Lemma keeps_for_each {A} (l : list A) (body : A -> M W unit) :
  (forall x, keeps P (body x)) -> keeps P (for_each l body).
Proof.
  intros Hbody. induction l as [|x l IH]; cbn [for_each].
  - apply keeps_quiet, read_only_ret.
  - apply keeps_bind; [apply Hbody|intros _; exact IH].
Qed.

Lemma keeps_enumerate {A} (ev : event) (f : W -> session -> W * listing A)
    (s : session) :
  keeps P (enumerate ev f s).
Proof.
  apply keeps_quiet. unfold enumerate.
  apply read_only_bind; [apply read_only_ask|].
  intros [|e| |items]; try apply read_only_ret;
    (apply read_only_bind; [apply read_only_emit|intros _]);
    try apply read_only_ret; apply read_only_raise.
Qed.

(** The bootstrap keeps what its three ways of registering keep. *)
Lemma keeps_connect_to_servers :
  (forall s tool, keeps P (register_tool (W := W) s tool)) ->
  (forall s prompt, keeps P (register_prompt (W := W) s prompt)) ->
  (forall s resource, keeps P (register_resource (W := W) s resource)) ->
  keeps P (connect_to_servers (W := W)).
Proof.
  intros Htool Hprompt Hresource.
  assert (Hprint : forall text, keeps P (print (W := W) text))
    by (intros; apply keeps_quiet, read_only_print).
  assert (Hret : forall A (a : A), keeps P (ret (W := W) a))
    by (intros; apply keeps_quiet, read_only_ret).
  assert (Hraise : forall A e, keeps P (raise (W := W) (A := A) e))
    by (intros; apply keeps_quiet, read_only_raise).
  assert (Hserver : forall n c, keeps P (connect_to_server n c)).
  { intros n c. unfold connect_to_server. apply keeps_try_except.
    - apply keeps_bind; [apply Hprint|]. intros _.
      apply keeps_bind; [apply keeps_quiet, read_only_emit|]. intros _.
      apply keeps_bind; [apply keeps_quiet, read_only_call|]. intros s.
      apply keeps_bind.
      { unfold connect_tools. apply keeps_try_except; [|intros e; apply Hprint].
        apply keeps_bind; [apply keeps_enumerate|].
        intros [tools|]; [|apply Hret].
        apply keeps_bind; [|intros _; apply Hprint].
        apply keeps_for_each. apply Htool. }
      intros _. apply keeps_bind.
      { unfold connect_prompts. apply keeps_try_except; [|intros e; apply Hprint].
        apply keeps_bind; [apply keeps_enumerate|].
        intros [[|p ps]|]; try apply Hret.
        apply keeps_bind; [|intros _; apply Hprint].
        apply keeps_for_each. apply Hprompt. }
      intros _. apply keeps_bind.
      { unfold connect_resources.
        apply keeps_try_except; [|intros e; apply Hprint].
        apply keeps_bind; [apply keeps_enumerate|].
        intros [[|u us]|]; try apply Hret.
        apply keeps_bind; [|intros _; apply Hprint].
        apply keeps_for_each. apply Hresource. }
      intros _. apply keeps_bind; [apply Hprint|intros _; apply Hret].
    - intros e. apply keeps_bind; [apply Hprint|intros _; apply Hret]. }
  unfold connect_to_servers. apply keeps_bind; [apply Hprint|]. intros _.
  apply keeps_try_except.
  - unfold load_servers. apply keeps_bind; [apply Hprint|]. intros _.
    apply keeps_bind; [apply keeps_quiet, read_only_emit|]. intros _.
    apply keeps_bind; [apply keeps_quiet, read_only_call|]. intros config.
    destruct config; try apply Hraise.
    destruct (py_len _) as [e|n]; [apply Hraise|].
    apply keeps_bind; [apply Hprint|]. intros _.
    destruct (Nat.eqb n 0).
    { apply keeps_bind; [apply Hprint|intros _; apply Hret]. }
    destruct (getattr _ _); try apply Hraise.
    apply keeps_bind.
    { apply keeps_for_each. intros [server_name server_config].
      unfold connect_entry. apply keeps_bind; [apply Hprint|]. intros _.
      destruct (command_line server_config) as [e|line]; [apply Hraise|].
      apply keeps_bind; [apply Hprint|]. intros _.
      apply keeps_bind; [apply Hserver|]. intros [|]; apply Hprint. }
    intros _. apply keeps_bind; [apply keeps_quiet, read_only_get_self|].
    intros b. apply keeps_bind; [|intros _; apply Hret].
    destruct (available_tools b); apply Hprint.
  - intros e. destruct e;
      repeat (apply keeps_bind; [apply Hprint|intros _]); apply Hret.
Qed.

End Keeps.

Lemma get_set_keeps (k k' : string) (s : session) (d : PyDict.t session) :
  PyDict.get k' d <> None -> PyDict.get k' (PyDict.set k s d) <> None.
Proof.
  intros H. rewrite get_set. destruct (String.eqb k' k); [discriminate|exact H].
Qed.

(** X6. Whatever the configuration and the backends do, and however the
    bootstrap ends, every tool in the list sent to the model and every
    prompt in the list shown to the user has its name in the registry:
    true of a new object, the property is kept by [connect_to_servers] and
    by every turn of the input loop, so a request of the model for a tool it
    was offered is never answered "not found". *)
Theorem X6_listed_names_resolve :
  forall (W : Type) (X : Externals W),
    names_resolve new_chatbot
    /\ (forall st : state W,
           names_resolve (self st) ->
           names_resolve (self (snd (connect_to_servers st))))
    /\ (forall fuel inp (st : state W),
           names_resolve (self st) ->
           names_resolve (self (snd (chat_turn fuel inp st))))
    /\ (forall (st : state W) td a id input rest h t,
           names_resolve (self st) ->
           In td (available_tools (self st)) ->
           exists s,
             PyDict.get (td_name td) (sessions (self st)) = Some s
             /\ response_loop a (ToolUse id (td_name td) input :: rest) h t st
                = (emit (CallTool s (td_name td) input) ;;
                   result <- call (fun w => session_call_tool w s (td_name td) input) ;;
                   response_loop a rest true
                     (messages_append (ToolResult id result)
                        (messages_append (Assistant a)
                           (list_append a (ToolUse id (td_name td) input) t)))) st).
Proof.
  intros W X. split; [split; intros ? []|]. split; [|split].
  - apply keeps_connect_to_servers.
    + intros s tool [w [ts ps d] tr] [Ht Hp]. unfold register_tool.
      cbn [snd self bind get_self set_self available_tools available_prompts
             sessions] in *.
      split.
      * intros td Hin. apply in_app_or in Hin. destruct Hin as [Hin|[<-|[]]].
        -- apply get_set_keeps. now apply Ht.
        -- cbn [td_name sessions]. rewrite get_set_same. discriminate.
      * intros pd Hin. apply get_set_keeps. now apply Hp.
    + intros s prompt [w [ts ps d] tr] [Ht Hp]. unfold register_prompt.
      cbn [snd self bind get_self set_self available_tools available_prompts
             sessions] in *.
      split.
      * intros td Hin. apply get_set_keeps. now apply Ht.
      * intros pd Hin. apply in_app_or in Hin. destruct Hin as [Hin|[<-|[]]].
        -- apply get_set_keeps. now apply Hp.
        -- cbn [pd_name sessions]. rewrite get_set_same. discriminate.
    + intros s resource [w [ts ps d] tr] [Ht Hp]. unfold register_resource.
      cbn [snd self bind get_self set_self available_tools available_prompts
             sessions] in *.
      split; intros x Hin; apply get_set_keeps; [now apply Ht|now apply Hp].
  - intros fuel inp st H. destruct (read_only_chat_turn fuel inp st) as [-> _].
    exact H.
  - intros [w b tr] td a id input rest h t [Ht _] Hin. cbn [self] in *.
    destruct (PyDict.get (td_name td) (sessions b)) as [s|] eqn:Hget;
      [|exfalso; now apply (Ht td Hin)].
    exists s. split; [reflexivity|].
    cbn [response_loop]. unfold bind at 1, get_self. cbn [self].
    rewrite Hget. reflexivity.
Qed.

(** ** A malformed entry, and the lists after the bootstrap *)

Section EntriesFacts.
Context {W : Type} {X : Externals W}.

Lemma for_each_app {A} (l1 l2 : list A) (body : A -> M W unit) (st : state W) :
  for_each (l1 ++ l2) body st
  = (for_each l1 body ;; for_each l2 body) st.
Proof.
  revert st. induction l1 as [|x l1 IH]; intros st; cbn [app for_each].
  - reflexivity.
  - unfold bind. destruct (body x st) as [[[]|e|] st1];
      [rewrite IH; reflexivity|reflexivity|reflexivity].
Qed.

Lemma str_items_error (l : list json) :
  forall i e, str_items i l = inl e -> exists msg, e = TypeError msg.
Proof.
  induction l as [|v l IH]; intros i e; cbn [str_items]; [discriminate|].
  destruct v; try (intros H; injection H as <-; eexists; reflexivity).
  destruct (str_items (S i) l) as [e'|ss] eqn:E; [|discriminate].
  intros H. injection H as <-. exact (IH _ _ E).
Qed.

(** Line 105 raises an [AttributeError] or a [TypeError], nothing else. *)
Lemma command_line_error (server_config : json) (e : exn) :
  command_line server_config = inl e ->
  exists msg, e = AttributeError msg \/ e = TypeError msg.
Proof.
  unfold command_line.
  destruct server_config as [| | | | | |o];
    try (intros H; injection H as <-; eexists; left; reflexivity).
  destruct (join_args _) as [e'|joined] eqn:E; [|discriminate].
  intros H. injection H as <-. revert E. unfold join_args.
  destruct (getattr _ _) as [| | | | |l|o'];
    try (intros H; injection H as <-; eexists; right; reflexivity);
    try discriminate.
  destruct (str_items 0 l) as [e''|ss] eqn:E; [|discriminate].
  intros H. injection H as <-.
  destruct (str_items_error _ _ _ E) as [msg ->]. exists msg. now right.
Qed.

Lemma available_after (regs : list capabilities) :
  forall b,
    available_tools (fold_left (fun b c => registered c b) regs b)
    = (available_tools b ++ flat_map (fun c => map tool_entry (cap_tools c)) regs)%list
    /\ available_prompts (fold_left (fun b c => registered c b) regs b)
       = (available_prompts b
          ++ flat_map (fun c => map prompt_entry (cap_prompts c)) regs)%list.
Proof.
  induction regs as [|c regs IH]; intros b; cbn [fold_left flat_map].
  - now rewrite !app_nil_r.
  - destruct (IH (registered c b)) as [-> ->].
    cbn [registered available_tools available_prompts].
    now rewrite <- !app_assoc.
Qed.

End EntriesFacts.

(** X7. An entry of [mcpServers] whose command line cannot be printed (it
    is no mapping, or its [args] are no strings) ends the bootstrap there:
    [connect_to_servers] prints the error and returns [False]; the entries
    before it stay connected and registered, and nothing is done for the
    entries after it. *)
Theorem X7_malformed_entry_stops_the_bootstrap :
  forall (W : Type) (X : Externals W) (st : state W) (w1 : W)
         (o pre post : list (string * json)) (bad_name : string)
         (bad_config : json) (e : exn),
    load_config (world st) = (w1, inr (JObj o)) ->
    PyDict.get "mcpServers" o
      = Some (JObj (pre ++ (bad_name, bad_config) :: post)) ->
    Forall (fun entry => exists line, command_line (snd entry) = inr line) pre ->
    command_line bad_config = inl e ->
    exists st1,
      for_each pre connect_entry
        {| world := w1; self := self st;
           trace := trace st ++
             [Print (PyStr.nl ++ "Initializing MCP servers...");
              Print "Loading server configuration..."; OpenConfig;
              Print ("Found " ++
                     PyStr.of_nat (List.length (pre ++ (bad_name, bad_config) :: post))
                     ++ " server(s) in config")] |}
      = (Return tt, st1)
      /\ self st1 = fold_left (fun b c => registered c b)
                      (registrations w1 pre) (self st)
      /\ connect_to_servers st
         = (Return false,
            {| world := world st1; self := self st1;
               trace := trace st1 ++
                 [Print (PyStr.nl ++ "Attempting to connect to " ++ bad_name ++ "...");
                  Print ("  ✗ Error loading server config: " ++ str_exn e)] |}).
Proof.
  intros W X [w b tr] w1 o pre post bad_name bad_config e.
  cbn [world self trace]. intros Hload Hget Hpre Hbad.
  match goal with
  | |- exists st1, for_each pre connect_entry ?st0 = _ /\ _ =>
      destruct (connect_entries_spec pre st0 Hpre) as (w' & evs & Hrun)
  end.
  cbn [world self trace] in Hrun. eexists. split; [exact Hrun|].
  cbn [world self trace]. split; [reflexivity|].
  unfold connect_to_servers, try_except, load_servers.
  unfold bind at 1, print at 1, emit at 1. cbn [world self trace].
  unfold bind at 1, print at 1, emit at 1. cbn [world self trace].
  unfold bind at 1, emit at 1. cbn [world self trace].
  unfold bind at 1, call. cbn [world self trace].
  rewrite Hload, Hget. cbn [getattr py_len].
  assert (Hlen : Nat.eqb (List.length (pre ++ (bad_name, bad_config) :: post)) 0
                 = false).
  { rewrite length_app. cbn [List.length]. rewrite Nat.add_succ_r. reflexivity. }
  rewrite Hlen. unfold bind at 1, print at 1, emit at 1.
  cbn [world self trace]. unfold bind at 1.
  rewrite for_each_app. unfold bind at 1.
  match type of Hrun with
  | for_each _ _ ?sH = _ =>
      match goal with
      | |- context [for_each pre connect_entry ?s0] =>
          replace s0 with sH by (f_equal; now rewrite <- !app_assoc)
      end
  end.
  rewrite Hrun.
  cbn [for_each]. unfold bind at 1. unfold connect_entry at 1.
  unfold bind at 1, print at 1, emit at 1. cbn [world self trace].
  rewrite Hbad. unfold raise.
  destruct (command_line_error _ _ Hbad) as [msg [-> | ->]];
    unfold bind, print, emit, ret; cbn [world self trace str_exn];
    rewrite <- !app_assoc; reflexivity.
Qed.

(** X8. After a bootstrap over entries that can all be printed, the list
    sent to the model holds one descriptor for every tool a connected
    backend listed, in the order of the configuration and of the listings,
    and the prompt list likewise: a name two backends list is there twice,
    while the registry holds it once. *)
Theorem X8_descriptors_follow_the_listings :
  forall (W : Type) (X : Externals W) (entries : list (string * json))
         (st : state W) (w1 : W) (o : list (string * json)),
    load_config (world st) = (w1, inr (JObj o)) ->
    PyDict.get "mcpServers" o = Some (JObj entries) ->
    entries <> [] ->
    Forall (fun entry => exists line, command_line (snd entry) = inr line)
           entries ->
    exists st',
      connect_to_servers st = (Return true, st')
      /\ available_tools (self st')
         = (available_tools (self st)
            ++ flat_map (fun c => map tool_entry (cap_tools c))
                 (registrations w1 entries))%list
      /\ available_prompts (self st')
         = (available_prompts (self st)
            ++ flat_map (fun c => map prompt_entry (cap_prompts c))
                 (registrations w1 entries))%list.
Proof.
  intros W X entries st w1 o Hload Hget Hne Hall.
  destruct (connect_to_servers_spec entries st w1 o Hload Hget Hne Hall)
    as (w' & evs & H).
  eexists. split; [exact H|]. cbn [self]. apply available_after.
Qed.

(** ** Queries *)

Section QueryFacts.
Context {W : Type} {X : Externals W}.

Lemma events_without_tool_use (d : PyDict.t session) (response : list segment) :
  existsb is_tool_use response = false ->
  flat_map (block_events d) response = map Print (texts response).
Proof.
  induction response as [|[text|id name input|ty] rest IH]; simpl; auto.
  - intros H. now rewrite IH.
  - discriminate.
Qed.


End QueryFacts.

(** X9. A query the model answers without a tool request: one request is
    sent, with the tool list and the query alone, the texts of the answer
    are printed in order, no backend is called, and [process_query]
    returns. *)
Theorem X9_answer_without_tools :
  forall (W : Type) (X : Externals W) (fuel : nat) (query : string)
         (st : state W) (w1 : W) (response : list segment),
    messages_create (world st) (available_tools (self st)) [ApiUser query]
      = (w1, inr response) ->
    existsb is_tool_use response = false ->
    process_query (S fuel) query st
    = (Return tt,
       {| world := w1; self := self st;
          trace :=
            (trace st ++
             CreateMessage (available_tools (self st)) [ApiUser query]
             :: map Print (texts response))%list |}).
Proof.
  intros W X fuel query st w1 response Hcreate Hnone.
  destruct (no_tool_use (sessions (self st)) response Hnone) as (Hd & Hr & Hi).
  assert (Hcalls : call_in_order w1 (dispatched (sessions (self st)) response)
                   = (w1, inr [])) by now rewrite Hd.
  unfold process_query. unfold bind at 1. rewrite tool_use_loop_step.
  rewrite (turn_returns (initial_transcript query) st w1 w1 response []
             Hcreate Hcalls).
  rewrite Hnone, Hr. now rewrite events_without_tool_use.
Qed.


(** ** Lines *)

Section LineFacts.
Context {W : Type} {X : Externals W}.

Lemma lstrip_spaces (s : string) :
  forallb PyStr.is_space (list_ascii_of_string s) = true ->
  PyStr.lstrip s = "".
Proof.
  induction s as [|c s IH]; cbn [list_ascii_of_string forallb PyStr.lstrip];
    [reflexivity|].
  intros H. apply andb_prop in H. destruct H as [Hc Hs]. now rewrite Hc, IH.
Qed.

Lemma lower_nonempty (q : string) : PyStr.lower q = "quit" -> q <> "".
Proof. intros H ->. discriminate. Qed.

(** [get_resource] always returns. *)
Lemma returns_get_resource (uri : string) : returns (get_resource (W := W) uri).
Proof.
  intros [w b tr]. unfold get_resource. unfold bind at 1, get_self.
  cbn [self]. destruct (resource_session (sessions b) uri) as [s|].
  - unfold try_except. unfold bind at 1, emit at 1. unfold bind at 1, call.
    cbn [world self trace].
    destruct (session_read_resource w s uri) as [w1 [e|[[|[text|class] others]|]]];
      eexists; eexists; reflexivity.
  - eexists. eexists. reflexivity.
Qed.

End LineFacts.

(** X11. A line of whitespace only, the empty line included, is ignored:
    the turn does nothing after reading it and the loop goes on. *)
Theorem X11_blank_line_is_ignored :
  forall (W : Type) (X : Externals W) (fuel : nat) (s : string)
         (st : state W) (rest : list user_input),
    forallb PyStr.is_space (list_ascii_of_string s) = true ->
    chat_turn fuel (Line s) st = (Return Continue, after st [query_prompt])
    /\ input_loop fuel (Line s :: rest) st
       = input_loop fuel rest (after st [query_prompt]).
Proof.
  intros W X fuel s st rest Hs.
  assert (H : chat_turn fuel (Line s) st = (Return Continue, after st [query_prompt])).
  { unfold chat_turn, try_except. unfold bind at 1, emit at 1.
    unfold PyStr.strip. rewrite (lstrip_spaces s Hs). reflexivity. }
  split; [exact H|]. cbn [input_loop]. unfold bind at 1. now rewrite H.
Qed.

(** X12. A line that reads [quit], in any case and with any whitespace
    around it, ends the input loop at once: nothing is called, and the lines
    after it are not read. *)
Theorem X12_quit_ends_the_loop :
  forall (W : Type) (X : Externals W) (fuel : nat) (s : string)
         (st : state W) (rest : list user_input),
    PyStr.lower (PyStr.strip s) = "quit" ->
    chat_turn fuel (Line s) st = (Return Break, after st [query_prompt])
    /\ input_loop fuel (Line s :: rest) st
       = (Return tt, after st [query_prompt]).
Proof.
  intros W X fuel s st rest Hq.
  assert (H : chat_turn fuel (Line s) st = (Return Break, after st [query_prompt])).
  { unfold chat_turn, try_except. unfold bind at 1, emit at 1.
    destruct (String.eqb (PyStr.strip s) "") eqn:E.
    - apply String.eqb_eq in E. exfalso. now apply (lower_nonempty _ Hq).
    - rewrite Hq. reflexivity. }
  split; [exact H|]. cbn [input_loop]. unfold bind at 1. now rewrite H.
Qed.

(** X13. A line [@topic] fetches the resource [papers://topic], for
    [folders] as for any other topic, and the turn goes on whatever the
    fetch does. The resource is reported "not found" exactly when no key of
    the registry starts with [papers://]. *)
Theorem X13_at_lines_fetch_papers_resources :
  forall (W : Type) (X : Externals W) (fuel : nat) (s topic : string)
         (st : state W),
    PyStr.strip s = String "@" topic ->
    (exists st',
        get_resource ("papers://" ++ topic) (after st [query_prompt])
          = (Return tt, st')
        /\ chat_turn fuel (Line s) st = (Return Continue, st'))
    /\ (resource_session (sessions (self st)) ("papers://" ++ topic) = None
        <-> first_papers (sessions (self st)) = None).
Proof.
  intros W X fuel s topic st Hs. split.
  - destruct (returns_get_resource ("papers://" ++ topic)
                (after st [query_prompt])) as ([] & st' & Hget).
    exists st'. split; [exact Hget|].
    unfold chat_turn, try_except. unfold bind at 1, emit at 1.
    rewrite Hs. cbn [String.eqb PyStr.lower].
    assert (Hl : Ascii.eqb (PyStr.lower_char "@") "q" = false) by reflexivity.
    rewrite Hl.
    assert (Hat : PyStr.startswith (String "@" topic) "@" = true).
    { unfold PyStr.startswith. cbn [String.prefix].
      destruct (Ascii.ascii_dec "@" "@"); [|congruence]. now destruct topic. }
    rewrite Hat. unfold at_resource.
    assert (Huri : (if String.eqb topic "folders" then "papers://folders"
                    else "papers://" ++ topic) = "papers://" ++ topic).
    { destruct (String.eqb topic "folders") eqn:E; [|reflexivity].
      apply String.eqb_eq in E. now subst. }
    rewrite Huri. unfold bind at 1.
    change {| world := world st; self := self st;
              trace := trace st ++ [ReadLine (PyStr.nl ++ "Query: ")] |}
      with (after st [query_prompt]).
    rewrite Hget. reflexivity.
  - unfold resource_session.
    assert (Hp : PyStr.startswith ("papers://" ++ topic) "papers://" = true).
    { unfold PyStr.startswith. cbn. now destruct topic. }
    rewrite Hp.
    destruct (PyDict.get ("papers://" ++ topic) (sessions (self st)))
      as [s0|] eqn:Hget; [|tauto].
    split; [discriminate|]. intros Hnone. exfalso.
    revert Hget Hnone. generalize (sessions (self st)) as d.
    induction d as [|[k v] d IH]; cbn [PyDict.get first_papers];
      [discriminate|].
    destruct (String.eqb ("papers://" ++ topic) k) eqn:E.
    + apply String.eqb_eq in E. subst k. rewrite Hp. discriminate.
    + destruct (PyStr.startswith k "papers://"); [discriminate|exact IH].
Qed.

(** ** Resources and prompts, when the backend fails or has nothing *)



(** ** The transcript over the turns, and the listing of prompts *)

Section TranscriptFacts.
Context {W : Type} {X : Externals W}.

Lemma pair_up_assistant (a x : nat) (ids : list string) :
  forall rs, In (Assistant x) (pair_up a ids rs) -> x = a.
Proof.
  induction ids as [|id ids IH]; intros rs H; cbn [pair_up] in H;
    [contradiction|].
  destruct H as [H|H]; [now injection H|].
  destruct rs as [|r rs]; [contradiction|].
  destruct H as [H|H]; [discriminate|]. exact (IH _ H).
Qed.

Lemma deref_older (h : list (list segment)) (cs : list segment) (m : message) :
  (forall a, m = Assistant a -> a < List.length h) ->
  deref (h ++ [cs]) m = deref h m.
Proof.
  intros H. destruct m as [q|a|i c]; cbn [deref]; try reflexivity.
  now rewrite app_nth1 by (apply H; reflexivity).
Qed.

(** A turn that returns leaves the lists well formed and what the model was
    sent before at the head of what it is sent next. *)
Lemma turn_extends (t : transcript) (st st' : state W)
    (r : transcript + transcript) :
  well_formed t ->
  turn t st = (Return r, st') ->
  let t' := match r with inl x | inr x => x end in
  well_formed t' /\ exists new, view t' = (view t ++ new)%list.
Proof.
  intros Hwf H.
  destruct (messages_create (world st) (available_tools (self st)) (view t))
    as [w1 [e|response]] eqn:Hcreate.
  { exfalso. revert H. destruct st as [w b tr]. cbn [world self] in Hcreate.
    unfold turn. unfold bind at 1, get_self. unfold bind at 1, emit.
    unfold bind at 1, call. cbn [world self trace]. rewrite Hcreate.
    discriminate. }
  destruct (call_in_order w1 (dispatched (sessions (self st)) response))
    as [w' [e|rs]] eqn:Hcalls.
  { pose proof (turn_raises t st _ _ _ _ Hcreate Hcalls) as Hr.
    rewrite H in Hr. discriminate. }
  rewrite (turn_returns t st _ _ _ _ Hcreate Hcalls) in H.
  assert (Ht' : match r with inl x | inr x => x end
                = after_response (sessions (self st)) response rs t).
  { destruct (existsb is_tool_use response); injection H as <- _; reflexivity. }
  cbn zeta. rewrite Ht'. unfold after_response. split.
  - intros a Hin. cbn [messages heap] in *. rewrite length_app. cbn [List.length].
    apply in_app_or in Hin. destruct Hin as [Hin|Hin].
    + specialize (Hwf a Hin). lia.
    + apply pair_up_assistant in Hin. lia.
  - unfold view. cbn [messages heap]. rewrite map_app. eexists. f_equal.
    apply map_ext_in. intros m Hm. apply deref_older. intros a ->.
    now apply Hwf.
Qed.

Lemma resubmits_extend (n : nat) (t tn : transcript) (st stn : state W) :
  resubmits n t st tn stn ->
  well_formed t ->
  well_formed tn /\ exists new, view tn = (view t ++ new)%list.
Proof.
  induction 1 as [|n t st t1 st1 t2 st2 Hturn _ IH]; intros Hwf.
  - split; [exact Hwf|]. exists []. now rewrite app_nil_r.
  - destruct (turn_extends t st st1 (inr t1) Hwf Hturn) as [Hwf1 [new1 H1]].
    cbn zeta in Hwf1, H1. destruct (IH Hwf1) as [Hwf2 [new2 H2]].
    split; [exact Hwf2|]. exists (new1 ++ new2)%list.
    now rewrite H2, H1, app_assoc.
Qed.

Lemma print_lines (lines : list string) (st : state W) :
  for_each lines (print (W := W)) st = (Return tt, after st (map Print lines)).
Proof.
  revert st. induction lines as [|line lines IH]; intros [w b tr];
    cbn [for_each map].
  - unfold ret, after. cbn [world self trace]. now rewrite app_nil_r.
  - unfold bind at 1, print at 1, emit at 1. rewrite IH. unfold after.
    cbn [world self trace]. now rewrite <- app_assoc.
Qed.

Lemma print_prompt_lines (prompt : prompt_descriptor) (st : state W) :
  print_prompt prompt st = (Return tt, after st (map Print (prompt_lines prompt))).
Proof.
  destruct st as [w b tr]. unfold print_prompt, prompt_lines.
  unfold bind at 1, print at 1, emit at 1. cbn [world self trace].
  destruct (pd_arguments prompt) as [|arg args].
  - reflexivity.
  - unfold bind at 1, print at 1, emit at 1. cbn [world self trace].
    assert (H : forall l (st0 : state W),
               for_each l print_argument st0
               = (Return tt,
                  after st0 (map Print (map (fun arg => "    - " ++ shown_name arg) l)))).
    { induction l as [|x l IH]; intros [w0 b0 tr0]; cbn [for_each map].
      - unfold ret, after. cbn [world self trace]. now rewrite app_nil_r.
      - unfold bind at 1. unfold print_argument at 1, print at 1, emit at 1.
        rewrite IH. unfold after, shown_name. cbn [world self trace].
        now rewrite <- app_assoc. }
    rewrite H. unfold after. cbn [world self trace map].
    now rewrite <- !app_assoc.
Qed.

End TranscriptFacts.

(** X16. Over the turns of one query the lists are only appended to: every
    assistant message points at a list that exists, and each request to the
    model starts with the messages, contents included, of the request before
    it; the first message is the query. *)
Theorem X16_requests_extend_the_earlier_ones :
  forall (W : Type) (X : Externals W) (query : string),
    well_formed (initial_transcript query)
    /\ (forall n (t tn : transcript) (st stn : state W),
           well_formed t ->
           resubmits n t st tn stn ->
           well_formed tn /\ exists new, view tn = (view t ++ new)%list)
    /\ (forall n (tn : transcript) (st stn : state W),
           resubmits n (initial_transcript query) st tn stn ->
           exists new,
             view tn = ApiUser query :: new
             /\ exists evs,
                  trace (snd (turn tn stn))
                  = (trace stn ++
                     CreateMessage (available_tools (self stn))
                       (ApiUser query :: new) :: evs)%list).
Proof.
  intros W X query.
  assert (Hwf : well_formed (initial_transcript query)).
  { intros a [H|[]]. discriminate. }
  split; [exact Hwf|]. split.
  - intros n t tn st stn Ht Hre. exact (resubmits_extend n t tn st stn Hre Ht).
  - intros n tn st stn Hre.
    destruct (resubmits_extend n _ tn st stn Hre Hwf) as [_ [new Hnew]].
    exists new. split; [exact Hnew|].
    destruct (turn_trace tn stn) as [evs Hevs]. exists evs.
    rewrite Hevs, Hnew. reflexivity.
Qed.

(** X17. [/prompts] shows the object and nothing else: the lines printed
    are those of [self.available_prompts], one for each prompt in order and
    then its arguments, no backend and no model is called, and the loop goes
    on. *)
Theorem X17_prompt_listing_only_prints :
  forall (W : Type) (X : Externals W) (fuel : nat) (st : state W),
    list_prompts st
    = (Return tt,
       after st (map Print (listing_lines (available_prompts (self st)))))
    /\ chat_turn fuel (Line "/prompts") st
       = (Return Continue,
          after st (query_prompt ::
                    map Print (listing_lines (available_prompts (self st))))).
Proof.
  intros W X fuel st.
  assert (H : forall st0 : state W,
             list_prompts st0
             = (Return tt,
                after st0 (map Print (listing_lines (available_prompts (self st0)))))).
  { intros [w b tr]. unfold list_prompts, listing_lines.
    unfold bind at 1, get_self. cbn [world self trace].
    destruct (available_prompts b) as [|p ps]; [reflexivity|].
    unfold bind at 1, print at 1, emit at 1. cbn [world self trace].
    assert (Hall : forall l (st0 : state W),
               for_each l print_prompt st0
               = (Return tt, after st0 (map Print (flat_map prompt_lines l)))).
    { induction l as [|x l IH]; intros [w0 b0 tr0]; cbn [for_each flat_map map].
      - unfold ret, after. cbn [world self trace]. now rewrite app_nil_r.
      - unfold bind at 1. rewrite print_prompt_lines, IH. unfold after.
        cbn [world self trace]. now rewrite map_app, <- app_assoc. }
    rewrite Hall. unfold after. cbn [world self trace map].
    now rewrite <- app_assoc. }
  split; [apply H|].
  destruct st as [w b tr]. unfold chat_turn, try_except.
  unfold bind at 1, emit at 1. cbn [world self trace].
  change (PyStr.strip "/prompts") with "/prompts".
  change (String.eqb "/prompts" "") with false.
  change (String.eqb (PyStr.lower "/prompts") "quit") with false.
  change (PyStr.startswith "/prompts" "@") with false.
  change (PyStr.startswith "/prompts" "/") with true.
  cbv iota. unfold slash_command.
  change (PyStr.split "/prompts") with ["/prompts"]. cbv beta iota zeta.
  change (String.eqb (PyStr.lower "/prompts") "/prompts") with true.
  cbv iota. unfold bind at 1. rewrite H. unfold after, ret, query_prompt.
  cbn [world self trace]. now rewrite <- app_assoc.
Qed.

(** ** The further properties on the scenarios *)

Lemma X3_witness :
  connect_to_server "a" JNull Scenario2.with_folders
  = (Return false,
     {| world := world Scenario2.with_folders;
        self := self Scenario2.with_folders;
        trace := [Print "Connecting to a server...";
                  Launch "a" JNull;
                  Print "  ✗ Error connecting to a: no such server"] |}).
Proof.
  apply (X3_failed_launch_changes_nothing Script.world _ "a" JNull
           Scenario2.with_folders (world Scenario2.with_folders)
           (OtherException "no such server")).
  reflexivity.
Defined.

Lemma X4_witness :
  exists st',
    connect_to_server "c" JNull Scenario2.with_broken_tools = (Return true, st')
    /\ available_tools (self st') = []
    /\ sessions (self st') = [("p", 3)]
    /\ In (Print "  ⚠️ Could not list tools: boom") (trace st').
Proof.
  destruct (X4_failed_listing_is_skipped Script.world _ "c" JNull
              Scenario2.with_broken_tools
              (world Scenario2.with_broken_tools)
              (world Scenario2.with_broken_tools)
              (world Scenario2.with_broken_tools)
              (world Scenario2.with_broken_tools)
              3 (OtherException "boom")
              (Script.prompts Scenario2.broken_tools) NoField)
    as [evs H]; try reflexivity.
  eexists. split; [exact H|]. cbn [self trace available_tools sessions].
  split; [reflexivity|]. split; [reflexivity|].
  apply in_or_app. right. cbn. auto.
Defined.

Lemma X5_witness :
  exists lines,
    connect_to_servers (boot Scenario2.no_file)
    = (Return false,
       {| world := Scenario2.no_file; self := new_chatbot;
          trace := [Print (PyStr.nl ++ "Initializing MCP servers...");
                    Print "Loading server configuration..."; OpenConfig]
                   ++ map Print lines |})
    /\ lines = ["Error: server_config.json not found in current directory";
                "  ✗ Error: server_config.json not found"].
Proof.
  destruct (X5_unreadable_configuration_is_fatal Script.world _
              Scenario2.no_file Scenario2.no_file
              (FileNotFoundError "server_config.json") 0 [])
    as (lines & H1 & _ & H3 & _); [reflexivity|].
  exists lines. split; [exact H1|]. exact (H3 _ eq_refl).
Defined.

Lemma X7_witness :
  exists st',
    connect_to_servers Scenario2.second_is_malformed = (Return false, st')
    /\ sessions (self st') = [("t", 1)].
Proof.
  destruct (X7_malformed_entry_stops_the_bootstrap Script.world _
              Scenario2.second_is_malformed
              (world Scenario2.second_is_malformed)
              [("mcpServers",
                JObj [Script.entry "a"; ("b", JStr "oops"); Script.entry "c"])]
              [Script.entry "a"] [Script.entry "c"] "b" (JStr "oops")
              (AttributeError "'str' object has no attribute 'get'"))
    as (st1 & H1 & H2 & H3).
  - reflexivity.
  - reflexivity.
  - repeat constructor. eexists. reflexivity.
  - reflexivity.
  - eexists. split; [exact H3|]. cbn [self]. rewrite H2. reflexivity.
Defined.

Lemma X8_witness :
  exists st',
    connect_to_servers Scenario.same_tool = (Return true, st')
    /\ map td_name (available_tools (self st')) = ["t"; "t"].
Proof.
  destruct (X8_descriptors_follow_the_listings Script.world _
              [Script.entry "a"; Script.entry "b"] Scenario.same_tool
              (world Scenario.same_tool)
              [("mcpServers", JObj [Script.entry "a"; Script.entry "b"])])
    as (st' & H1 & H2 & _).
  - reflexivity.
  - reflexivity.
  - discriminate.
  - repeat constructor; eexists; reflexivity.
  - exists st'. split; [exact H1|]. rewrite H2. reflexivity.
Defined.

Lemma X9_witness :
  process_query 1 "q" Scenario2.answers_plainly
  = (Return tt,
     {| world := Script.make JNull [] []; self := Scenario.with_tool;
        trace := [CreateMessage (available_tools Scenario.with_tool) [ApiUser "q"];
                  Print "hi"; Print "there"] |}).
Proof.
  apply (X9_answer_without_tools Script.world _ 0 "q" Scenario2.answers_plainly
           (Script.make JNull [] []) [Text "hi"; Text "there"]);
    reflexivity.
Defined.


Lemma X11_witness :
  chat_turn 0 (Line "   ") Scenario2.with_folders
  = (Return Continue, after Scenario2.with_folders [query_prompt]).
Proof.
  apply (X11_blank_line_is_ignored Script.world _ 0 "   "
           Scenario2.with_folders []).
  reflexivity.
Defined.

Lemma X12_witness :
  input_loop 0 [Line "  QuIt "; Line "hello"] Scenario2.with_folders
  = (Return tt, after Scenario2.with_folders [query_prompt]).
Proof.
  apply (X12_quit_ends_the_loop Script.world _ 0 "  QuIt "
           Scenario2.with_folders [Line "hello"]).
  reflexivity.
Defined.

Lemma X13_witness :
  exists st',
    chat_turn 0 (Line "@folders") Scenario2.with_folders = (Return Continue, st')
    /\ In (ReadResource 2 "papers://folders") (trace st').
Proof.
  destruct (X13_at_lines_fetch_papers_resources Script.world _ 0 "@folders"
              "folders" Scenario2.with_folders eq_refl)
    as [(st' & Hget & Hturn) _].
  exists st'. split; [exact Hturn|].
  injection Hget as <-. cbn. auto.
Defined.

Lemma X6_witness :
  names_resolve (self (snd (connect_to_servers Scenario.same_tool))).
Proof.
  destruct (X6_listed_names_resolve Script.world _) as (Hnew & Hboot & _).
  apply Hboot. exact Hnew.
Defined.



Lemma X16_witness :
  exists tn stn new,
    resubmits 1 (initial_transcript "q") Scenario.asks_twice tn stn
    /\ view tn = ApiUser "q" :: new.
Proof.
  destruct (X16_requests_extend_the_earlier_ones Script.world _ "q")
    as (_ & _ & H).
  eexists. eexists.
  assert (Hre : resubmits 1 (initial_transcript "q") Scenario.asks_twice
                  (fst (match turn (initial_transcript "q") Scenario.asks_twice with
                        | (Return (inr t1), st1) => (t1, st1)
                        | (_, st1) => (initial_transcript "q", st1)
                        end))
                  (snd (match turn (initial_transcript "q") Scenario.asks_twice with
                        | (Return (inr t1), st1) => (t1, st1)
                        | (_, st1) => (initial_transcript "q", st1)
                        end))).
  { econstructor; [reflexivity|constructor]. }
  destruct (H 1 _ _ _ Hre) as (new & Hnew & _).
  exists new. split; [exact Hre|exact Hnew].
Defined.

